(** * Duux climate entities: preset discovery, dispatch and preset control

    A shallow embedding of [custom_components/duux/climate.py].

    The payloads the module inspects are parsed JSON: [None], booleans,
    integers, floats, strings, lists and string-keyed dictionaries.  They are
    modelled by the type [any]; a dictionary is an association list, because
    the code depends on insertion order ([obj.values()] in [_deep_find]).
    Python exceptions are values of [exn], carried by [res]; log records and
    calls to the vendor client are events of a trace.

    Not modelled: the interpreter's recursion limit (a payload nested a
    thousand levels deep), and the rendering of non-printable code points
    above 127 by [repr]. *)

From Stdlib Require Import ZArith List String Ascii Bool Lia.
From Stdlib Require Import DecimalString DecimalZ DecimalPos.
Import ListNotations.
Open Scope string_scope.
Open Scope Z_scope.

(** ** Python objects *)

(** Floats are kept abstract: the code only compares them with integers
    ([x == 49], truth value [x != 0]) and formats them ([str(x)]).  Any
    implementation of these two operations fits, as long as a float equals
    at most one integer and its [repr] is not the empty string. *)
Class PyFloat := {
  float : Type;
  float_eq_int : float -> Z -> bool;
  float_repr : float -> string;
  float_eq_int_inj :
    forall x m n, float_eq_int x m = true -> float_eq_int x n = true -> m = n;
  float_repr_nonempty : forall x, float_repr x <> ""
}.

(** Payloads with no float in them. *)
Definition no_float : PyFloat :=
  {| float := Empty_set;
     float_eq_int := fun x _ => match x with end;
     float_repr := fun x => match x with end;
     float_eq_int_inj := fun x => match x with end;
     float_repr_nonempty := fun x => match x with end |}.

Inductive exn : Set :=
| AttributeError
| KeyError
| TypeError
| UnboundLocalError
| ClientError.

Inductive res (A : Type) : Type :=
| Ok (a : A)
| Raise (e : exn).
Arguments Ok {A} a.
Arguments Raise {A} e.

Section Objects.
Context {F : PyFloat}.

Unset Elimination Schemes.
Inductive any : Type :=
| VNone
| VBool (b : bool)
| VInt (n : Z)
| VFloat (x : float)
| VStr (s : string)
| VList (l : list any)
| VDict (d : list (string * any)).
Set Elimination Schemes.

Definition dict := list (string * any).

(** Induction over a payload, with the hypothesis on every item of a list
    and on every value of a dictionary. *)
Definition any_ind (P : any -> Prop)
    (HNone : P VNone)
    (HBool : forall b, P (VBool b))
    (HInt : forall n, P (VInt n))
    (HFloat : forall x, P (VFloat x))
    (HStr : forall s, P (VStr s))
    (HList : forall l, Forall P l -> P (VList l))
    (HDict : forall d, Forall (fun kv => P (snd kv)) d -> P (VDict d)) :
  forall v, P v :=
  fix rec (v : any) : P v :=
    match v with
    | VNone => HNone
    | VBool b => HBool b
    | VInt n => HInt n
    | VFloat x => HFloat x
    | VStr s => HStr s
    | VList l =>
        HList l ((fix items (l : list any) : Forall P l :=
                    match l with
                    | [] => Forall_nil _
                    | x :: r => Forall_cons x (rec x) (items r)
                    end) l)
    | VDict d =>
        HDict d ((fix entries (d : dict) : Forall (fun kv => P (snd kv)) d :=
                    match d with
                    | [] => Forall_nil _
                    | kv :: r =>
                        @Forall_cons _ (fun kv => P (snd kv)) kv r
                          (rec (snd kv)) (entries r)
                    end) d)
    end.

(** [x is None] *)
Definition is_none (v : any) : bool :=
  match v with VNone => true | _ => false end.

(** [isinstance(x, dict)] and [isinstance(x, list)] *)
Definition is_dict (v : any) : bool :=
  match v with VDict _ => true | _ => false end.

Definition is_list (v : any) : bool :=
  match v with VList _ => true | _ => false end.

(** [x == n] for an integer literal [n]: [True == 1], [1.0 == 1]. *)
Definition py_eq_int (v : any) (n : Z) : bool :=
  match v with
  | VBool b => (if b then 1 else 0) =? n
  | VInt m => m =? n
  | VFloat x => float_eq_int x n
  | _ => false
  end.

(** [x == s] for a string [s]. *)
Definition py_eq_str (v : any) (s : string) : bool :=
  match v with
  | VStr t => String.eqb t s
  | _ => false
  end.

(** [bool(x)] *)
Definition truthy (v : any) : bool :=
  match v with
  | VNone => false
  | VBool b => b
  | VInt n => negb (n =? 0)
  | VFloat x => negb (float_eq_int x 0)
  | VStr s => negb (String.eqb s "")
  | VList l => match l with [] => false | _ => true end
  | VDict d => match d with [] => false | _ => true end
  end.

(** [a or b] *)
Definition py_or (a b : any) : any := if truthy a then a else b.

(** Lists and dictionaries cannot be hashed. *)
Definition hashable (v : any) : bool :=
  match v with VList _ | VDict _ => false | _ => true end.

(** [key in d] and [d[key]] on a dictionary. *)
Fixpoint lookup (key : string) (d : dict) : option any :=
  match d with
  | [] => None
  | (k, v) :: r => if String.eqb k key then Some v else lookup key r
  end.

(** [d.get(key, default)] on a dictionary. *)
Definition dict_get (d : dict) (key : string) (default : any) : any :=
  match lookup key d with Some v => v | None => default end.

(** [obj.get(key, default)]: only a dictionary has the method. *)
Definition get (obj : any) (key : string) (default : any) : res any :=
  match obj with
  | VDict d => Ok (dict_get d key default)
  | _ => Raise AttributeError
  end.

(** [obj[key]] with a string key: a missing key is a [KeyError]; a list or a
    string takes no string index, the other objects take no index at all. *)
Definition subscript (obj : any) (key : string) : res any :=
  match obj with
  | VDict d => match lookup key d with Some v => Ok v | None => Raise KeyError end
  | _ => Raise TypeError
  end.

(** [next(iter(l), default)] *)
Definition next (l : list any) (default : any) : any :=
  match l with [] => default | v :: _ => v end.

(** *** [repr] and [str] *)

Definition squote : ascii := ascii_of_nat 39.
Definition dquote : ascii := ascii_of_nat 34.
Definition backslash : ascii := ascii_of_nat 92.

Fixpoint contains (c : ascii) (s : string) : bool :=
  match s with
  | EmptyString => false
  | String a r => Ascii.eqb a c || contains c r
  end.

Definition hex_digit (n : nat) : ascii :=
  nth n (list_ascii_of_string "0123456789abcdef") "0"%char.

(** One character of a string literal delimited by [q]. *)
Definition repr_char (q c : ascii) : string :=
  let n := nat_of_ascii c in
  if Ascii.eqb c q || Ascii.eqb c backslash then String backslash (String c "")
  else if Nat.eqb n 9 then String backslash "t"
  else if Nat.eqb n 10 then String backslash "n"
  else if Nat.eqb n 13 then String backslash "r"
  else if Nat.ltb n 32 || Nat.eqb n 127 then
    String backslash
      (String "x" (String (hex_digit (Nat.div n 16)) (String (hex_digit (Nat.modulo n 16)) "")))
  else String c "".

Fixpoint repr_chars (q : ascii) (s : string) : string :=
  match s with
  | EmptyString => ""
  | String c r => repr_char q c ++ repr_chars q r
  end.

(** [repr(s)]: single quotes, unless the string holds a single quote and no
    double quote. *)
Definition repr_str (s : string) : string :=
  let q := if contains squote s && negb (contains dquote s) then dquote else squote in
  String q (repr_chars q s ++ String q "").

Definition repr_int (n : Z) : string := NilZero.string_of_int (Z.to_int n).

Fixpoint join (sep : string) (l : list string) : string :=
  match l with
  | [] => ""
  | [s] => s
  | s :: r => s ++ sep ++ join sep r
  end.

Fixpoint repr (v : any) : string :=
  match v with
  | VNone => "None"
  | VBool b => if b then "True" else "False"
  | VInt n => repr_int n
  | VFloat x => float_repr x
  | VStr s => repr_str s
  | VList l => "[" ++ join ", " (map repr l) ++ "]"
  | VDict d =>
      "{" ++ join ", " (map (fun kv => repr_str (fst kv) ++ ": " ++ repr (snd kv)) d) ++ "}"
  end.

(** [str(x)], also what an f-string field [{x}] renders. *)
Definition str (v : any) : string :=
  match v with
  | VStr s => s
  | _ => repr v
  end.

End Objects.

(** ** Home Assistant's constants

    [PRESET_ECO], [PRESET_COMFORT], [PRESET_BOOST] and [HVACMode] are imported
    from [homeassistant.components.climate.const]; these are their values
    there. *)

Definition PRESET_ECO : string := "eco".
Definition PRESET_COMFORT : string := "comfort".
Definition PRESET_BOOST : string := "boost".

Inductive HVACMode : Set :=
| OFF | HEAT | COOL | HEAT_COOL | AUTO | DRY | FAN_ONLY.

Definition HVACMode_eqb (a b : HVACMode) : bool :=
  match a, b with
  | OFF, OFF | HEAT, HEAT | COOL, COOL | HEAT_COOL, HEAT_COOL
  | AUTO, AUTO | DRY, DRY | FAN_ONLY, FAN_ONLY => true
  | _, _ => false
  end.

(** ** Effects: the log, the vendor client and the coordinator *)

Section Effects.
Context {F : PyFloat}.

Inductive level : Set := DEBUG | WARNING.

(** The calls of the vendor client, each with the device address first. *)
Inductive api_call : Type :=
| set_temperature (mac temperature : any)
| set_power (mac : any) (on : bool)
| set_mode (mac mode : any)
| send_command (mac : any) (command : string).

Inductive event : Type :=
| Log (lvl : level) (msg : string) (args : list any)
| Call (c : api_call)
| RequestRefresh.

(** A computation leaves a trace of events and returns or raises. *)
Definition M (A : Type) : Type := (list event * res A)%type.

Definition ret {A} (a : A) : M A := ([], Ok a).

Definition raise {A} (e : exn) : M A := ([], Raise e).

Definition bind {A B} (m : M A) (k : A -> M B) : M B :=
  match m with
  | (t, Ok a) => let (t', r) := k a in ((t ++ t')%list, r)
  | (t, Raise e) => (t, Raise e)
  end.

Definition lift {A} (r : res A) : M A := ([], r).

Definition log (lvl : level) (msg : string) (args : list any) : M unit :=
  ([Log lvl msg args], Ok tt).

(** [await hass.async_add_executor_job(call)]: the call is made; what the
    client raises is not caught here.  [client c] tells whether the call
    [c] returns. *)
Definition executor_job (client : api_call -> bool) (c : api_call) : M unit :=
  ([Call c], if client c then Ok tt else Raise ClientError).

(** [await self._coordinator.async_request_refresh()] *)
Definition async_request_refresh : M unit := ([RequestRefresh], Ok tt).

Definition trace {A} (m : M A) : list event := fst m.
Definition outcome {A} (m : M A) : res A := snd m.

End Effects.

Declare Scope py_scope.
Notation "'let*' x ':=' m 'in' k" := (bind m (fun x => k))
  (at level 10, x name, m at level 100, k at level 200) : py_scope.
Open Scope py_scope.

(** ** The entities *)

Inductive climate_class : Set :=
| AutoDiscovery      (* DuuxClimateAutoDiscovery: the generic entity *)
| Threesixty         (* DuuxThreesixtyClimate: Threesixty 2023 *)
| ThreesixtyTwo      (* DuuxThreesixtyTwoClimate: Threesixty Two (2022) *)
| Edge.              (* DuuxEdgeClimate: Edge heater v2 *)

Section Entity.
Context {F : PyFloat}.

(** The attributes [__init__] sets.  [_presets] exists on the discovery
    classes only; it is empty on the others. *)
Record entity : Type := {
  cls : climate_class;
  _device : any;
  _device_id : any;
  _device_mac : any;
  _attr_unique_id : string;
  _attr_name : any;
  _attr_min_temp : Z;
  _attr_max_temp : Z;
  _attr_target_temperature_step : Z;
  _attr_hvac_modes : list HVACMode;
  _presets : list any
}.

Definition with_temp_range (lo hi : Z) (self : entity) : entity :=
  {| cls := cls self;
     _device := _device self;
     _device_id := _device_id self;
     _device_mac := _device_mac self;
     _attr_unique_id := _attr_unique_id self;
     _attr_name := _attr_name self;
     _attr_min_temp := lo;
     _attr_max_temp := hi;
     _attr_target_temperature_step := _attr_target_temperature_step self;
     _attr_hvac_modes := _attr_hvac_modes self;
     _presets := _presets self |}.

Definition with_presets (presets : list any) (self : entity) : entity :=
  {| cls := cls self;
     _device := _device self;
     _device_id := _device_id self;
     _device_mac := _device_mac self;
     _attr_unique_id := _attr_unique_id self;
     _attr_name := _attr_name self;
     _attr_min_temp := _attr_min_temp self;
     _attr_max_temp := _attr_max_temp self;
     _attr_target_temperature_step := _attr_target_temperature_step self;
     _attr_hvac_modes := _attr_hvac_modes self;
     _presets := presets |}.

End Entity.

(** *** class DuuxClimate *)

Module DuuxClimate.
Section Methods.
Context {F : PyFloat}.
Variable client : api_call -> bool.

Definition __init__ (c : climate_class) (device : any) : res entity :=
  match subscript device "id" with
  | Raise e => Raise e
  | Ok id =>
      match subscript device "deviceId" with
      | Raise e => Raise e
      | Ok mac =>
          match get device "displayName" VNone, get device "name" VNone with
          | Ok display, Ok name =>
              Ok {| cls := c;
                    _device := device;
                    _device_id := id;
                    _device_mac := mac;
                    _attr_unique_id := "duux_" ++ str id;
                    _attr_name := py_or display name;
                    _attr_min_temp := 18;
                    _attr_max_temp := 30;
                    _attr_target_temperature_step := 1;
                    _attr_hvac_modes := [OFF; HEAT];
                    _presets := [] |}
          | Raise e, _ => Raise e
          | _, Raise e => Raise e
          end
      end
  end.

(** The properties read the coordinator's snapshot [data] of the moment. *)
Definition current_temperature (data : any) : res any := get data "temp" VNone.

Definition target_temperature (data : any) : res any := get data "sp" VNone.

Definition hvac_mode (data : any) : res HVACMode :=
  match get data "power" (VInt 0) with
  | Ok power => Ok (if py_eq_int power 1 then HEAT else OFF)
  | Raise e => Raise e
  end.

Definition preset_mode : string := "".

Definition preset_modes : list string := [].

(** [temperature] is [kwargs.get(ATTR_TEMPERATURE)]. *)
Definition async_set_temperature (self : entity) (temperature : any) : M unit :=
  if is_none temperature then ret tt
  else
    let* _ := executor_job client (set_temperature (_device_mac self) temperature) in
    async_request_refresh.

Definition async_set_hvac_mode (self : entity) (mode : HVACMode) : M unit :=
  let* _ :=
    if HVACMode_eqb mode HEAT
    then executor_job client (set_power (_device_mac self) true)
    else executor_job client (set_power (_device_mac self) false) in
  async_request_refresh.

Definition async_set_preset_mode (self : entity) (preset_mode : string) : M unit :=
  ret tt.

(** The mapping [device_info] returns.  [DOMAIN] is the constant of
    [const.py], a parameter here. *)
Record DeviceInfo : Type := {
  identifiers : list (string * string);
  name : any;
  manufacturer : any;
  model : any
}.

Definition device_info (DOMAIN : string) (self : entity) : res DeviceInfo :=
  match get (_device self) "manufacturer" (VStr "Duux") with
  | Raise e => Raise e
  | Ok manufacturer =>
      match get (_device self) "sensorType" (VDict []) with
      | Raise e => Raise e
      | Ok sensor_type =>
          match get sensor_type "name" (VStr "Unknown") with
          | Raise e => Raise e
          | Ok model =>
              Ok {| identifiers := [(DOMAIN, str (_device_id self))];
                    name := _attr_name self;
                    manufacturer := manufacturer;
                    model := model |}
          end
      end
  end.

End Methods.
End DuuxClimate.

(** *** class DuuxClimateAutoDiscovery *)

Module DuuxClimateAutoDiscovery.
Section Methods.
Context {F : PyFloat}.
Variable client : api_call -> bool.

(** The generator [_deep_find(obj, key)], as the list of what it yields, in
    the order it yields it. *)
Fixpoint _deep_find (obj : any) (key : string) : list any :=
  match obj with
  | VDict d =>
      ((match lookup key d with Some v => [v] | None => [] end) ++
       (fix values (d : dict) : list any :=
          match d with
          | [] => []
          | (_, v) :: r => _deep_find v key ++ values r
          end) d)%list
  | VList l =>
      (fix items (l : list any) : list any :=
         match l with
         | [] => []
         | item :: r => (_deep_find item key ++ items r)%list
         end) l
  | _ => []
  end.

(** The hook of this class: the name is kept. *)
Definition _normalize_mode_name (name value : any) : any := name.

(** [isinstance(candidate, dict) and candidate.get("settings")] *)
Definition is_candidate (candidate : any) : bool :=
  match candidate with
  | VDict c => truthy (dict_get c "settings" VNone)
  | _ => false
  end.

(** The modes value discovery works on: the snapshot's [availableModes], or
    else the first one found in the device descriptor. *)
Definition resolve_modes (data device : any) : res any :=
  match get (py_or data (VDict [])) "availableModes" VNone with
  | Raise e => Raise e
  | Ok modes =>
      Ok (if is_none modes then next (_deep_find device "availableModes") VNone
          else modes)
  end.

(** A list of modes is narrowed to its first candidate. *)
Definition select_modes (modes : any) : any :=
  match modes with
  | VList l => next (filter is_candidate l) VNone
  | _ => modes
  end.

(** [setting.get("setting_name") or setting.get("settingName") or setting.get("name")] *)
Definition setting_name (setting : dict) : any :=
  py_or (py_or (dict_get setting "setting_name" VNone) (dict_get setting "settingName" VNone))
        (dict_get setting "name" VNone).

(** [setting.get("setting_value") or setting.get("settingValue") or setting.get("value")] *)
Definition setting_value (setting : dict) : any :=
  py_or (py_or (dict_get setting "setting_value" VNone) (dict_get setting "settingValue" VNone))
        (dict_get setting "value" VNone).

(** The command of a setting: its own, or one made of the prefix and the
    value, or the value. *)
Definition setting_command (command_prefix : any) (setting : dict) (value : any) : any :=
  let command := dict_get setting "command" VNone in
  if is_none command && truthy command_prefix && negb (is_none value)
  then VStr (str command_prefix ++ " " ++ str value)
  else if is_none command then value
  else command.

(** The body of the loop over the settings: the preset a setting gives, if
    it gives one.  [normalize] is [self._normalize_mode_name]. *)
Definition preset_of_setting (normalize : any -> any -> any)
    (command_prefix setting : any) : option any :=
  match setting with
  | VDict s =>
      let name := setting_name s in
      let value := setting_value s in
      let name := normalize name value in
      let command := setting_command command_prefix s value in
      if truthy name && negb (is_none command) then
        Some (VDict [("name", VStr (str name));
                     ("command", VStr (str command));
                     ("value", if is_none value then VNone else VStr (str value))])
      else None
  | _ => None
  end.

Fixpoint presets_of_settings (normalize : any -> any -> any)
    (command_prefix : any) (settings : list any) : list any :=
  match settings with
  | [] => []
  | setting :: r =>
      match preset_of_setting normalize command_prefix setting with
      | Some preset => preset :: presets_of_settings normalize command_prefix r
      | None => presets_of_settings normalize command_prefix r
      end
  end.

(** [modes.get("command_key") or modes.get("commandKey") or modes.get("key")] *)
Definition command_prefix_of (modes : dict) : any :=
  py_or (py_or (dict_get modes "command_key" VNone) (dict_get modes "commandKey" VNone))
        (dict_get modes "key" VNone).

Definition presets_discovery (normalize : any -> any -> any)
    (data device : any) : M (list any) :=
  let* modes := lift (resolve_modes data device) in
  match select_modes modes with
  | VDict modes =>
      match dict_get modes "settings" VNone with
      | VList settings =>
          let presets :=
            presets_of_settings normalize (command_prefix_of modes) settings in
          let* _ := log DEBUG "Discovered presets: %s" [VList presets] in
          ret presets
      | _ =>
          let* _ := log DEBUG "No settings found in available modes" [] in
          ret []
      end
  | _ =>
      let* _ := log DEBUG "No available modes found" [] in
      ret []
  end.

(** [data] is [coordinator.data] at the time the entity is built. *)
Definition __init__ (c : climate_class) (normalize : any -> any -> any)
    (data device : any) : M entity :=
  let* self := lift (DuuxClimate.__init__ c device) in
  let* presets := presets_discovery normalize data device in
  ret (with_presets presets self).

Fixpoint find_preset_name (presets : list any) (mode : string) : res any :=
  match presets with
  | [] => Ok VNone
  | preset :: r =>
      match subscript preset "value" with
      | Raise e => Raise e
      | Ok v =>
          if py_eq_str v mode then subscript preset "name"
          else find_preset_name r mode
      end
  end.

Definition preset_mode (self : entity) (data : any) : res any :=
  match get data "mode" VNone with
  | Raise e => Raise e
  | Ok mode => find_preset_name (_presets self) (str mode)
  end.

Fixpoint preset_modes_of (presets : list any) : res (list any) :=
  match presets with
  | [] => Ok []
  | preset :: r =>
      match subscript preset "name" with
      | Raise e => Raise e
      | Ok n =>
          match preset_modes_of r with
          | Raise e => Raise e
          | Ok ns => Ok (n :: ns)
          end
      end
  end.

Definition preset_modes (self : entity) : res (list any) :=
  preset_modes_of (_presets self).

(** The loop of [async_set_preset_mode]: the command bound to
    [mode_command] when the loop ends, [None] when no preset has the name
    and the variable is left unbound. *)
Fixpoint find_mode_command (presets : list any) (preset_mode : string)
    : res (option any) :=
  match presets with
  | [] => Ok None
  | preset :: r =>
      match subscript preset "name" with
      | Raise e => Raise e
      | Ok n =>
          if py_eq_str n preset_mode then
            match subscript preset "command" with
            | Raise e => Raise e
            | Ok c => Ok (Some c)
            end
          else find_mode_command r preset_mode
      end
  end.

Definition async_set_preset_mode (self : entity) (preset_mode : string) : M unit :=
  let* bound := lift (find_mode_command (_presets self) preset_mode) in
  match bound with
  | None => raise UnboundLocalError
  | Some mode_command =>
      let* _ :=
        executor_job client
          (send_command (_device_mac self) ("tune set " ++ str mode_command)) in
      async_request_refresh
  end.

End Methods.
End DuuxClimateAutoDiscovery.

(** *** class DuuxThreesixtyBase, and its two subclasses *)

Module DuuxThreesixtyBase.
Section Methods.
Context {F : PyFloat}.

Definition PRESET_LOW : string := PRESET_ECO.
Definition PRESET_HIGH : string := PRESET_BOOST.
Definition PRESET_MID : string := PRESET_COMFORT.

(** The hook of the Threesixty models: the values 2, 1 and 0, as strings,
    name the presets. *)
Definition _normalize_mode_name (name value : any) : any :=
  if negb (is_none value) then
    if py_eq_str value "2" then VStr PRESET_ECO
    else if py_eq_str value "1" then VStr PRESET_COMFORT
    else if py_eq_str value "0" then VStr PRESET_BOOST
    else name
  else name.

Definition __init__ (c : climate_class) (data device : any) : M entity :=
  let* self := DuuxClimateAutoDiscovery.__init__ c _normalize_mode_name data device in
  ret (with_temp_range 18 30 self).

End Methods.
End DuuxThreesixtyBase.

(** *** class DuuxEdgeClimate *)

Module DuuxEdgeClimate.
Section Methods.
Context {F : PyFloat}.
Variable client : api_call -> bool.

Definition PRESET_LOW : string := PRESET_ECO.
Definition PRESET_BOOST : string := PRESET_BOOST.
Definition PRESET_HIGH : string := PRESET_COMFORT.

Definition __init__ (device : any) : res entity :=
  match DuuxClimate.__init__ Edge device with
  | Raise e => Raise e
  | Ok self => Ok (with_temp_range 5 36 self)
  end.

Definition preset_modes : list string := [PRESET_LOW; PRESET_HIGH; PRESET_BOOST].

(** [table.get(key, default)] on a dictionary with integer keys: the key is
    hashed first, then compared with the keys of the table. *)
Definition int_table_get {A} (table : list (Z * A)) (key : any) (default : A)
    : res A :=
  if hashable key then
    Ok (match find (fun kv => py_eq_int key (fst kv)) table with
        | Some kv => snd kv
        | None => default
        end)
  else Raise TypeError.

Definition preset_mode (data : any) : res string :=
  match get data "heatin" VNone with
  | Raise e => Raise e
  | Ok mode =>
      let mode_map := [(1, PRESET_LOW); (2, PRESET_HIGH); (3, PRESET_BOOST)] in
      int_table_get mode_map mode PRESET_LOW
  end.

Definition async_set_preset_mode (self : entity) (preset_mode : string) : M unit :=
  let mode_map :=
    [(PRESET_LOW, VStr "1"); (PRESET_HIGH, VStr "2"); (PRESET_BOOST, VStr "3")] in
  let mode := dict_get mode_map preset_mode (VInt 1) in
  let* _ := executor_job client (set_mode (_device_mac self) mode) in
  async_request_refresh.

End Methods.
End DuuxEdgeClimate.

(** ** Setting up the entities *)

Section Setup.
Context {F : PyFloat}.
Variable client : api_call -> bool.

(** [coordinators[device_id]]: [coordinators] gives the snapshot of the
    coordinator registered under a key, if there is one. *)
Definition coordinator_of (coordinators : any -> option any) (device_id : any)
    : res any :=
  if hashable device_id then
    match coordinators device_id with
    | Some data => Ok data
    | None => Raise KeyError
    end
  else Raise TypeError.

(** The body of the loop over the devices. *)
Definition create_entity (coordinators : any -> option any) (device : any)
    : M entity :=
  let* sensor_type_id := lift (get device "sensorTypeId" VNone) in
  let* device_id := lift (subscript device "deviceId") in
  let* data := lift (coordinator_of coordinators device_id) in
  if py_eq_int sensor_type_id 49 then
    DuuxThreesixtyBase.__init__ Threesixty data device
  else if py_eq_int sensor_type_id 50 then
    lift (DuuxEdgeClimate.__init__ device)
  else if py_eq_int sensor_type_id 31 then
    DuuxThreesixtyBase.__init__ ThreesixtyTwo data device
  else
    let* self := DuuxClimateAutoDiscovery.__init__ AutoDiscovery
              DuuxClimateAutoDiscovery._normalize_mode_name data device in
    let* _ :=
      log WARNING
        ("Unknown heater type " ++ str sensor_type_id ++ ", using generic entity") [] in
    ret self.

(** The entities handed to [async_add_entities]. *)
Fixpoint async_setup_entry (coordinators : any -> option any) (devices : list any)
    : M (list entity) :=
  match devices with
  | [] => ret []
  | device :: r =>
      let* self := create_entity coordinators device in
      let* entities := async_setup_entry coordinators r in
      ret (self :: entities)
  end.

(** The method an entity answers with is the one of its class. *)
Definition preset_mode (self : entity) (data : any) : res any :=
  match cls self with
  | Edge =>
      match DuuxEdgeClimate.preset_mode data with
      | Ok name => Ok (VStr name)
      | Raise e => Raise e
      end
  | _ => DuuxClimateAutoDiscovery.preset_mode self data
  end.

Definition async_set_preset_mode (self : entity) (preset_mode : string) : M unit :=
  match cls self with
  | Edge => DuuxEdgeClimate.async_set_preset_mode client self preset_mode
  | _ => DuuxClimateAutoDiscovery.async_set_preset_mode client self preset_mode
  end.

End Setup.

(** ** Two sample entities, on payloads with no float *)

(** A Threesixty heater with three cached presets, two of them called
    [boost]. *)
Definition heater : entity (F := no_float) :=
  {| cls := Threesixty;
     _device := VDict [("id", VInt 7); ("deviceId", VStr "AA:BB")];
     _device_id := VInt 7;
     _device_mac := VStr "AA:BB";
     _attr_unique_id := "duux_7";
     _attr_name := VNone;
     _attr_min_temp := 18;
     _attr_max_temp := 30;
     _attr_target_temperature_step := 1;
     _attr_hvac_modes := [OFF; HEAT];
     _presets :=
       [VDict [("name", VStr "eco"); ("command", VStr "tune 2"); ("value", VStr "2")];
        VDict [("name", VStr "boost"); ("command", VStr "tune 0"); ("value", VStr "0")];
        VDict [("name", VStr "boost"); ("command", VStr "tune 9"); ("value", VStr "9")]] |}.

(** An Edge heater. *)
Definition edge_heater : entity (F := no_float) :=
  {| cls := Edge;
     _device := VDict [("id", VInt 8); ("deviceId", VStr "CC:DD")];
     _device_id := VInt 8;
     _device_mac := VStr "CC:DD";
     _attr_unique_id := "duux_8";
     _attr_name := VNone;
     _attr_min_temp := 5;
     _attr_max_temp := 36;
     _attr_target_temperature_step := 1;
     _attr_hvac_modes := [OFF; HEAT];
     _presets := [] |}.

(** A Threesixty device, its snapshot, and the entity made of them. *)
Definition sample_device : any (F := no_float) :=
  VDict [("id", VInt 7); ("deviceId", VStr "AA:BB"); ("sensorTypeId", VInt 49);
         ("sensorType", VDict [("name", VStr "Threesixty")])].

Definition sample_snapshot : any (F := no_float) :=
  VDict [("power", VInt 1); ("mode", VInt 2);
         ("availableModes",
          VDict [("command_key", VStr "tune");
                 ("settings",
                  VList [VDict [("name", VStr "Eco"); ("value", VStr "2")];
                         VDict [("name", VStr "Boost"); ("value", VStr "0")]])])].

Definition sample_coordinators (device_id : any (F := no_float)) : option any :=
  if py_eq_str device_id "AA:BB" then Some sample_snapshot else None.

Definition sample_created : M entity := create_entity sample_coordinators sample_device.

Definition sample_entity : entity :=
  match outcome sample_created with
  | Ok self => self
  | Raise _ => heater
  end.

(** The same entity as the discovery constructor leaves it. *)
Definition constructed : M entity :=
  DuuxClimateAutoDiscovery.__init__ Threesixty DuuxThreesixtyBase._normalize_mode_name
    sample_snapshot sample_device.

Definition constructed_entity : entity :=
  match outcome constructed with
  | Ok self => self
  | Raise _ => heater
  end.

(** A second device of the same coordinator, an Edge heater. *)
Definition second_device : any (F := no_float) :=
  VDict [("id", VInt 8); ("deviceId", VStr "AA:BB"); ("sensorTypeId", VInt 50)].

Definition second_entity : entity :=
  match outcome (create_entity sample_coordinators second_device) with
  | Ok self => self
  | Raise _ => edge_heater
  end.

(** A generic device with nothing to discover and a null [sensorType]. *)
Definition bare_device : any (F := no_float) :=
  VDict [("id", VInt 3); ("deviceId", VStr "EE:FF"); ("sensorType", VNone)].

Definition bare_created : M entity :=
  DuuxClimateAutoDiscovery.__init__ AutoDiscovery
    DuuxClimateAutoDiscovery._normalize_mode_name VNone bare_device.

Definition bare_entity : entity :=
  match outcome bare_created with
  | Ok self => self
  | Raise _ => heater
  end.

(** ** Vocabulary of the properties *)

Section Vocabulary.
Context {F : PyFloat}.

(** A snapshot preset discovery can read: a mapping, or [None] before the
    first refresh (any object that counts as false does as well). *)
Definition readable_snapshot (data : any) : bool :=
  is_dict data || negb (truthy data).

(** A preset descriptor with a name that is a non-empty string and a
    command that is a string. *)
Definition named_with_command (preset : any) : Prop :=
  exists name command,
    subscript preset "name" = Ok (VStr name) /\ name <> "" /\
    subscript preset "command" = Ok (VStr command).

(** [key] is a key of some dictionary inside [obj]. *)
Fixpoint occurs (key : string) (obj : any) : bool :=
  match obj with
  | VDict d =>
      (match lookup key d with Some _ => true | None => false end) ||
      (fix values (d : dict) : bool :=
         match d with
         | [] => false
         | (_, v) :: r => occurs key v || values r
         end) d
  | VList l =>
      (fix items (l : list any) : bool :=
         match l with
         | [] => false
         | item :: r => occurs key item || items r
         end) l
  | _ => false
  end.

(** [first_found key obj v]: [v] is the first value under [key] met by a
    depth-first walk of [obj] that looks at a mapping's own [key] before it
    enters the mapping's values, in insertion order, and that enters the
    items of a sequence in order. *)
Inductive first_found (key : string) : any -> any -> Prop :=
| found_own d v :
    lookup key d = Some v ->
    first_found key (VDict d) v
| found_in_value d before k x after v :
    lookup key d = None ->
    d = (before ++ (k, x) :: after)%list ->
    Forall (fun kv => occurs key (snd kv) = false) before ->
    first_found key x v ->
    first_found key (VDict d) v
| found_in_item l before x after v :
    l = (before ++ x :: after)%list ->
    Forall (fun item => occurs key item = false) before ->
    first_found key x v ->
    first_found key (VList l) v.

(** A name and a command can be resolved for the setting: it is a mapping,
    its normalized name counts as true and its command is not [None]. *)
Definition resolves (normalize : any -> any -> any) (prefix setting : any) : bool :=
  match setting with
  | VDict s =>
      truthy (normalize (DuuxClimateAutoDiscovery.setting_name s)
                (DuuxClimateAutoDiscovery.setting_value s)) &&
      negb (is_none (DuuxClimateAutoDiscovery.setting_command prefix s
                       (DuuxClimateAutoDiscovery.setting_value s)))
  | _ => false
  end.

(** [preset] is the descriptor of [setting]: its name, command and value
    are the strings of the setting's normalized name, command and value. *)
Definition describes (normalize : any -> any -> any) (prefix setting preset : any)
    : Prop :=
  exists s,
    setting = VDict s /\
    let value := DuuxClimateAutoDiscovery.setting_value s in
    subscript preset "name" =
      Ok (VStr (str (normalize (DuuxClimateAutoDiscovery.setting_name s) value))) /\
    subscript preset "command" =
      Ok (VStr (str (DuuxClimateAutoDiscovery.setting_command prefix s value))) /\
    subscript preset "value" =
      Ok (if is_none value then VNone else VStr (str value)).

(** What discovery returns and logs once it works on the mapping [modes]:
    the presets of its settings, or nothing when the settings are no
    sequence. *)
Definition discovered_from (normalize : any -> any -> any) (modes : dict)
    : M (list any) :=
  match dict_get modes "settings" VNone with
  | VList settings =>
      let presets :=
        DuuxClimateAutoDiscovery.presets_of_settings normalize
          (DuuxClimateAutoDiscovery.command_prefix_of modes) settings in
      ([Log DEBUG "Discovered presets: %s" [VList presets]], Ok presets)
  | _ => ([Log DEBUG "No settings found in available modes" []], Ok [])
  end.

(** The preset is called [name]. *)
Definition called (name : string) (preset : any) : bool :=
  match subscript preset "name" with
  | Ok n => py_eq_str n name
  | Raise _ => false
  end.

(** A warning record of the log. *)
Definition is_warning (e : event) : bool :=
  match e with
  | Log WARNING _ _ => true
  | _ => false
  end.

End Vocabulary.

(** ** Vocabulary of the further properties *)

Section FurtherVocabulary.
Context {F : PyFloat}.

(** [nested inner obj]: [inner] is [obj], or an item or a value of [obj],
    or nested in one. *)
Inductive nested (inner : any) : any -> Prop :=
| nested_here : nested inner inner
| nested_value d k v : In (k, v) d -> nested inner v -> nested inner (VDict d)
| nested_item l item : In item l -> nested inner item -> nested inner (VList l).

(** A preset descriptor as discovery builds it: the three keys in order,
    a non-empty name, a command, and a value that is [None] or a string. *)
Definition discovered (preset : any) : Prop :=
  exists name command value,
    preset = VDict [("name", VStr name); ("command", VStr command); ("value", value)] /\
    name <> "" /\ (value = VNone \/ exists s, value = VStr s).

(** [preset["value"] == mode] *)
Definition valued (mode : string) (preset : any) : bool :=
  match subscript preset "value" with
  | Ok v => py_eq_str v mode
  | Raise _ => false
  end.

(** The outcomes of an operation that makes one call of the client and then
    asks for a refresh: it stops before the call, or the call raises and
    nothing follows, or the call returns and the refresh follows. *)
Inductive one_call_then_refresh (client : api_call -> bool) : M unit -> Prop :=
| stops_without_call : one_call_then_refresh client ([], Ok tt)
| raises_before_call e : one_call_then_refresh client ([], Raise e)
| call_raises c :
    client c = false ->
    one_call_then_refresh client ([Call c], Raise ClientError)
| call_returns c :
    client c = true ->
    one_call_then_refresh client ([Call c; RequestRefresh], Ok tt).

(** A device descriptor [create_entity] accepts: a mapping with an [id] and
    a hashable [deviceId] under which a coordinator with a readable snapshot
    is registered. *)
Definition ready (coordinators : any -> option any) (device : any) : bool :=
  match device with
  | VDict d =>
      match lookup "id" d, lookup "deviceId" d with
      | Some _, Some mac =>
          hashable mac &&
          match coordinators mac with
          | Some data => readable_snapshot data
          | None => false
          end
      | _, _ => false
      end
  | _ => false
  end.

End FurtherVocabulary.

(** * Properties *)

(** ** Python objects *)

Section ObjectFacts.
Context {F : PyFloat}.

Lemma repr_int_nonempty (n : Z) : repr_int n <> "".
Proof.
  unfold repr_int.
  assert (Hu : forall p, NilZero.string_of_uint (Pos.to_uint p) <> "").
  { intro p. pose proof (Unsigned.to_uint_nonnil p) as Hp.
    destruct (Pos.to_uint p); simpl; congruence. }
  destruct n as [|p|p]; simpl.
  - discriminate.
  - apply Hu.
  - discriminate.
Qed.

Lemma repr_nonempty (v : any) : repr v <> "".
Proof.
  destruct v as [|b|n|x|s|l|d]; simpl; try discriminate.
  - destruct b; discriminate.
  - apply repr_int_nonempty.
  - apply float_repr_nonempty.
Qed.

(** [str(x)] of an object that counts as true is not the empty string. *)
Lemma str_truthy_nonempty (v : any) : truthy v = true -> str v <> "".
Proof.
  destruct v as [|b|n|x|s|l|d]; intro Ht;
    try (apply repr_nonempty); try discriminate.
  simpl in *. intro Hs. subst s. discriminate.
Qed.

Lemma is_none_true (v : any) : is_none v = true <-> v = VNone.
Proof. destruct v; simpl; split; congruence. Qed.

Lemma is_none_false (v : any) : is_none v = false <-> v <> VNone.
Proof. destruct v; simpl; split; congruence. Qed.

(** An object equals at most one integer. *)
Lemma py_eq_int_inj (v : any) (m n : Z) :
  py_eq_int v m = true -> py_eq_int v n = true -> m = n.
Proof.
  destruct v as [|b|k|x|s|l|d]; simpl; try discriminate.
  - intros H1 H2. apply Z.eqb_eq in H1, H2. congruence.
  - intros H1 H2. apply Z.eqb_eq in H1, H2. congruence.
  - apply float_eq_int_inj.
Qed.

End ObjectFacts.

(** ** Preset discovery *)

Section Discovery.
Context {F : PyFloat}.
Import DuuxClimateAutoDiscovery.

Lemma preset_of_setting_shape normalize prefix setting preset :
  preset_of_setting normalize prefix setting = Some preset ->
  exists s name command,
    setting = VDict s /\
    truthy name = true /\ command <> VNone /\
    name = normalize (setting_name s) (setting_value s) /\
    command = setting_command prefix s (setting_value s) /\
    preset = VDict [("name", VStr (str name));
                    ("command", VStr (str command));
                    ("value", if is_none (setting_value s) then VNone
                              else VStr (str (setting_value s)))].
Proof.
  destruct setting as [| | | | | |s]; simpl; try discriminate.
  destruct (truthy _) eqn:Hname; simpl; try discriminate.
  destruct (is_none (setting_command _ _ _)) eqn:Hcmd; simpl; try discriminate.
  intro H. injection H as <-.
  exists s. eexists. eexists. repeat split; eauto.
  now apply is_none_false.
Qed.

Lemma preset_of_setting_named normalize prefix setting preset :
  preset_of_setting normalize prefix setting = Some preset ->
  named_with_command preset.
Proof.
  intro H. apply preset_of_setting_shape in H.
  destruct H as (s & name & command & _ & Hn & _ & _ & _ & ->).
  exists (str name), (str command). repeat split.
  now apply str_truthy_nonempty.
Qed.

Lemma presets_of_settings_named normalize prefix settings :
  Forall named_with_command (presets_of_settings normalize prefix settings).
Proof.
  induction settings as [|setting r IH]; simpl.
  - constructor.
  - destruct (preset_of_setting normalize prefix setting) eqn:H; auto.
    constructor; auto. eapply preset_of_setting_named; eauto.
Qed.

Lemma presets_of_settings_length normalize prefix settings :
  (List.length (presets_of_settings normalize prefix settings) <= List.length settings)%nat.
Proof.
  induction settings as [|setting r IH]; simpl.
  - lia.
  - destruct (preset_of_setting normalize prefix setting); simpl; lia.
Qed.

(** A setting gives no preset exactly when it is no mapping, or its name
    counts as false, or it has no command. *)
Lemma preset_of_setting_none normalize prefix s :
  preset_of_setting normalize prefix (VDict s) = None <->
  truthy (normalize (setting_name s) (setting_value s)) = false \/
  setting_command prefix s (setting_value s) = VNone.
Proof.
  simpl.
  destruct (truthy _) eqn:Hname; simpl.
  - destruct (is_none (setting_command _ _ _)) eqn:Hcmd; simpl.
    + apply is_none_true in Hcmd. split; auto.
    + apply is_none_false in Hcmd. split; [discriminate|].
      intros [H|H]; [discriminate | contradiction].
  - split; auto.
Qed.

Lemma preset_of_setting_resolves normalize prefix setting :
  if resolves normalize prefix setting
  then exists preset,
         preset_of_setting normalize prefix setting = Some preset /\
         describes normalize prefix setting preset
  else preset_of_setting normalize prefix setting = None.
Proof.
  destruct setting as [| | | | | |s]; try reflexivity.
  unfold resolves, preset_of_setting.
  destruct (truthy _ && negb _); [|reflexivity].
  eexists. split; [reflexivity|]. exists s. repeat split.
Qed.

(** The presets are the descriptors of the settings that resolve, in the
    order of the settings; the other settings leave nothing in the list. *)
Lemma presets_of_settings_resolved normalize prefix settings :
  Forall2 (describes normalize prefix)
    (filter (resolves normalize prefix) settings)
    (presets_of_settings normalize prefix settings).
Proof.
  induction settings as [|setting r IH]; simpl; [constructor|].
  pose proof (preset_of_setting_resolves normalize prefix setting) as H.
  destruct (resolves normalize prefix setting).
  - destruct H as (preset & -> & Hd). now constructor.
  - now rewrite H.
Qed.

(** C1. Every preset that discovery produces from a list of settings has a
    name that is a non-empty string and a command that is a string (so not
    [None]).  The presets are, in order, the descriptors of the settings
    for which a name and a command resolve: a setting whose name resolves
    to nothing, or whose command resolves to [None], leaves nothing in the
    list, so the presets are at most as many as the settings.  This list is
    what discovery returns and logs for the settings of the modes it works
    on. *)
Theorem presets_named_and_bounded
    (normalize : any -> any -> any) (prefix : any) (settings : list any) :
  Forall named_with_command (presets_of_settings normalize prefix settings) /\
  (forall s,
     preset_of_setting normalize prefix (VDict s) = None <->
     truthy (normalize (setting_name s) (setting_value s)) = false \/
     setting_command prefix s (setting_value s) = VNone) /\
  (List.length (presets_of_settings normalize prefix settings) <= List.length settings)%nat /\
  Forall2 (describes normalize prefix)
    (filter (resolves normalize prefix) settings)
    (presets_of_settings normalize prefix settings) /\
  (forall setting,
     resolves normalize prefix setting = false ->
     forall before after,
       presets_of_settings normalize prefix (before ++ setting :: after) =
       presets_of_settings normalize prefix (before ++ after)) /\
  (forall data device modes m,
     resolve_modes data device = Ok modes ->
     select_modes modes = VDict m ->
     dict_get m "settings" VNone = VList settings ->
     command_prefix_of m = prefix ->
     presets_discovery normalize data device =
     ([Log DEBUG "Discovered presets: %s"
         [VList (presets_of_settings normalize prefix settings)]],
      Ok (presets_of_settings normalize prefix settings))).
Proof.
  split; [apply presets_of_settings_named|].
  split; [intro s; apply preset_of_setting_none|].
  split; [apply presets_of_settings_length|].
  split; [apply presets_of_settings_resolved|].
  split.
  - intros setting Hno before after.
    pose proof (preset_of_setting_resolves normalize prefix setting) as H.
    rewrite Hno in H.
    induction before as [|x r IH]; simpl.
    + now rewrite H.
    + now rewrite IH.
  - intros data device modes m Hres Hsel Hset <-.
    unfold presets_discovery. rewrite Hres. unfold lift, bind.
    rewrite Hsel, Hset. reflexivity.
Qed.

(** *** Malformed payloads *)

Lemma resolve_modes_readable data device :
  readable_snapshot data = true ->
  resolve_modes data device =
    Ok (let top := match data with
                   | VDict d => dict_get d "availableModes" VNone
                   | _ => VNone
                   end in
        if is_none top then next (_deep_find device "availableModes") VNone
        else top).
Proof.
  unfold readable_snapshot, resolve_modes, py_or.
  destruct data as [|b|n|x|s|l|d]; simpl; try reflexivity.
  - destruct b; [discriminate | reflexivity].
  - destruct (n =? 0); [reflexivity | discriminate].
  - destruct (float_eq_int x 0); [reflexivity | discriminate].
  - destruct (String.eqb s ""); [reflexivity | discriminate].
  - destruct l; [reflexivity | discriminate].
  - destruct d; reflexivity.
Qed.

(** The one way discovery raises: the snapshot is an object that counts as
    true and has no [get]. *)
Lemma presets_discovery_unreadable normalize data device :
  readable_snapshot data = false ->
  presets_discovery normalize data device = ([], Raise AttributeError).
Proof.
  unfold readable_snapshot, presets_discovery, resolve_modes, py_or.
  destruct data as [|b|n|x|s|l|d]; simpl; try discriminate;
    intro H; apply negb_false_iff in H; simpl in H; rewrite H; reflexivity.
Qed.

(** Entries of the settings that are no mapping are passed over. *)
Lemma presets_of_settings_mappings normalize prefix settings :
  presets_of_settings normalize prefix settings =
  presets_of_settings normalize prefix (filter is_dict settings).
Proof.
  induction settings as [|setting r IH]; simpl; [reflexivity|].
  destruct setting; simpl; try exact IH.
  destruct (truthy _ && _); [f_equal|]; exact IH.
Qed.

(** What discovery does once the modes value is resolved. *)
Lemma presets_discovery_resolved normalize data device modes :
  resolve_modes data device = Ok modes ->
  presets_discovery normalize data device =
    match select_modes modes with
    | VDict m =>
        match dict_get m "settings" VNone with
        | VList settings =>
            let presets :=
              presets_of_settings normalize (command_prefix_of m) settings in
            ([Log DEBUG "Discovered presets: %s" [VList presets]], Ok presets)
        | _ => ([Log DEBUG "No settings found in available modes" []], Ok [])
        end
    | _ => ([Log DEBUG "No available modes found" []], Ok [])
    end.
Proof.
  intro H. unfold presets_discovery. rewrite H. unfold lift, bind.
  destruct (select_modes modes) as [| | | | | |m]; try reflexivity.
  destruct (dict_get m "settings" VNone); reflexivity.
Qed.

Lemma presets_discovery_returns normalize data device :
  readable_snapshot data = true ->
  exists presets msg args,
    presets_discovery normalize data device = ([Log DEBUG msg args], Ok presets) /\
    Forall named_with_command presets.
Proof.
  intro Hdata.
  rewrite (presets_discovery_resolved _ _ _ _ (resolve_modes_readable _ _ Hdata)).
  destruct (select_modes _) as [| | | | | |m].
  7: destruct (dict_get m "settings" VNone).
  all: do 3 eexists; (split; [reflexivity|]); try constructor.
  apply presets_of_settings_named.
Qed.

(** Whenever discovery returns, its presets are named and have a command. *)
Lemma discovered_presets_named normalize data device t presets :
  presets_discovery normalize data device = (t, Ok presets) ->
  Forall named_with_command presets.
Proof.
  destruct (readable_snapshot data) eqn:Hdata.
  - destruct (presets_discovery_returns normalize data device Hdata)
      as (presets' & msg & args & -> & Hwf).
    intro H. injection H as _ <-. exact Hwf.
  - rewrite (presets_discovery_unreadable normalize data device Hdata). discriminate.
Qed.

(** So are the cached presets of every entity [__init__] returns. *)
Lemma init_presets_named c normalize data device t self :
  DuuxClimateAutoDiscovery.__init__ c normalize data device = (t, Ok self) ->
  Forall named_with_command (_presets self).
Proof.
  unfold DuuxClimateAutoDiscovery.__init__, lift, bind, ret.
  destruct (DuuxClimate.__init__ c device) as [base|e]; [|discriminate].
  destruct (presets_discovery normalize data device) as [t' [presets|e]] eqn:Hrun;
    [|discriminate].
  intro H. injection H as _ <-. simpl. eapply discovered_presets_named; eauto.
Qed.

(** C3. Whatever the device descriptor is, and whatever the snapshot holds
    (the snapshot being a mapping, or [None]), preset discovery returns a
    list and logs one debug record.  The list is empty when the modes value
    is no mapping and when its settings are no sequence; entries of the
    settings that are no mapping only shorten it. *)
Theorem presets_discovery_never_raises
    (normalize : any -> any -> any) (data device : any) :
  readable_snapshot data = true ->
  exists modes presets msg args,
    resolve_modes data device = Ok modes /\
    presets_discovery normalize data device = ([Log DEBUG msg args], Ok presets) /\
    (is_dict (select_modes modes) = false -> presets = []) /\
    (forall m, select_modes modes = VDict m ->
               is_list (dict_get m "settings" VNone) = false -> presets = []) /\
    (forall m settings,
       select_modes modes = VDict m ->
       dict_get m "settings" VNone = VList settings ->
       presets = presets_of_settings normalize (command_prefix_of m)
                   (filter is_dict settings)).
Proof.
  intro Hdata.
  pose proof (resolve_modes_readable data device Hdata) as Hres.
  match type of Hres with _ = Ok ?m => set (modes := m) in Hres end.
  clearbody modes.
  pose proof (presets_discovery_resolved normalize data device modes Hres) as Hrun.
  exists modes.
  destruct (select_modes modes) as [| | | | | |m] eqn:Hsel.
  7: destruct (dict_get m "settings" VNone) as [| | | | |settings|] eqn:Hset.
  all: do 3 eexists; split; [exact Hres|]; split; [exact Hrun|].
  all: repeat split; try reflexivity; try discriminate.
  all: try (intros m' Hm'; injection Hm' as <-; rewrite Hset; simpl; try discriminate;
            intros; reflexivity).
  all: try (intros m' settings' Hm'; injection Hm' as <-; rewrite Hset;
            try discriminate).
  intro H. injection H as <-. apply presets_of_settings_mappings.
Qed.

(** *** A sequence of modes *)

Lemma filter_none {A} (f : A -> bool) (l : list A) :
  Forall (fun x => f x = false) l -> filter f l = [].
Proof.
  induction 1 as [|x l Hx _ IH]; simpl; [reflexivity|]. now rewrite Hx.
Qed.

Lemma select_modes_first before candidate after :
  Forall (fun x => is_candidate x = false) before ->
  is_candidate candidate = true ->
  select_modes (VList (before ++ candidate :: after)) = candidate.
Proof.
  intros Hb Hc. simpl. rewrite filter_app, (filter_none _ _ Hb). simpl.
  now rewrite Hc.
Qed.

Lemma select_modes_no_candidate l :
  Forall (fun x => is_candidate x = false) l ->
  select_modes (VList l) = VNone.
Proof. intro H. simpl. now rewrite (filter_none _ _ H). Qed.

Lemma is_candidate_mapping candidate :
  is_candidate candidate = true ->
  exists c, candidate = VDict c /\ truthy (dict_get c "settings" VNone) = true.
Proof. destruct candidate; simpl; try discriminate. eauto. Qed.

Lemma is_candidate_iff candidate :
  is_candidate candidate = true <->
  exists c v,
    candidate = VDict c /\ lookup "settings" c = Some v /\ truthy v = true.
Proof.
  split.
  - destruct candidate as [| | | | | |c]; simpl; try discriminate.
    unfold dict_get. destruct (lookup "settings" c) as [v|] eqn:Hv; [|discriminate].
    intro Ht. exists c, v. auto.
  - intros (c & v & -> & Hv & Ht). simpl. unfold dict_get. now rewrite Hv.
Qed.

(** C6. When the modes value resolved is a sequence, discovery works on its
    first item that is a mapping with a [settings] entry that counts as
    true (not empty), as if that item alone were the modes value: it
    returns and logs the presets of that item's settings, read with that
    item's command prefix, and the other items play no part.  With no such
    item there is no modes value and no preset.  So it is for
    [[{"settings": []}, {"other": 1}]]. *)
Theorem sequence_of_modes_first_candidate
    (normalize : any -> any -> any) (data device : any) (l : list any) :
  resolve_modes data device = Ok (VList l) ->
  (forall before candidate after,
     l = (before ++ candidate :: after)%list ->
     Forall (fun x => is_candidate x = false) before ->
     is_candidate candidate = true ->
     select_modes (VList l) = candidate /\
     presets_discovery normalize data device =
     presets_discovery normalize (VDict [("availableModes", candidate)]) device) /\
  (Forall (fun x => is_candidate x = false) l ->
     select_modes (VList l) = VNone /\
     presets_discovery normalize data device =
     ([Log DEBUG "No available modes found" []], Ok [])) /\
  (l = [VDict [("settings", VList [])]; VDict [("other", VInt 1)]] ->
     presets_discovery normalize data device =
     ([Log DEBUG "No available modes found" []], Ok [])) /\
  (forall x,
     is_candidate x = true <->
     exists c v, x = VDict c /\ lookup "settings" c = Some v /\ truthy v = true) /\
  (forall before c after,
     l = (before ++ VDict c :: after)%list ->
     Forall (fun x => is_candidate x = false) before ->
     truthy (dict_get c "settings" VNone) = true ->
     presets_discovery normalize data device = discovered_from normalize c /\
     forall settings,
       dict_get c "settings" VNone = VList settings ->
       presets_discovery normalize data device =
       ([Log DEBUG "Discovered presets: %s"
           [VList (presets_of_settings normalize (command_prefix_of c) settings)]],
        Ok (presets_of_settings normalize (command_prefix_of c) settings))).
Proof.
  intro Hres.
  assert (Hno : Forall (fun x => is_candidate x = false) l ->
                presets_discovery normalize data device =
                ([Log DEBUG "No available modes found" []], Ok [])).
  { intro Hl. rewrite (presets_discovery_resolved _ _ _ _ Hres).
    now rewrite (select_modes_no_candidate l Hl). }
  assert (Hfrom : forall before c after,
             l = (before ++ VDict c :: after)%list ->
             Forall (fun x => is_candidate x = false) before ->
             truthy (dict_get c "settings" VNone) = true ->
             presets_discovery normalize data device = discovered_from normalize c).
  { intros before c after -> Hb Hc.
    rewrite (presets_discovery_resolved _ _ _ _ Hres).
    rewrite (select_modes_first before (VDict c) after Hb Hc).
    unfold discovered_from. destruct (dict_get c "settings" VNone); reflexivity. }
  split; [|split; [|split; [|split]]].
  - intros before candidate after -> Hb Hc.
    split; [now apply select_modes_first|].
    destruct (is_candidate_mapping _ Hc) as (c & -> & _).
    rewrite (presets_discovery_resolved _ _ _ _ Hres).
    rewrite (presets_discovery_resolved normalize _ device (VDict c)) by reflexivity.
    now rewrite (select_modes_first before (VDict c) after Hb Hc).
  - intro Hl. split; [now apply select_modes_no_candidate | now apply Hno].
  - intros ->. apply Hno. repeat constructor.
  - apply is_candidate_iff.
  - intros before c after Hl Hb Hc.
    pose proof (Hfrom before c after Hl Hb Hc) as Hrun.
    split; [exact Hrun|].
    intros settings Hs. rewrite Hrun. unfold discovered_from. now rewrite Hs.
Qed.

(** *** The search through the device descriptor *)

Lemma _deep_find_dict (d : dict) key :
  _deep_find (VDict d) key =
  ((match lookup key d with Some v => [v] | None => [] end) ++
   flat_map (fun kv => _deep_find (snd kv) key) d)%list.
Proof.
  simpl. f_equal.
  induction d as [|[k v] r IH]; simpl; [reflexivity|]. now rewrite IH.
Qed.

Lemma _deep_find_list (l : list any) key :
  _deep_find (VList l) key = flat_map (fun item => _deep_find item key) l.
Proof.
  simpl. induction l as [|x r IH]; simpl; [reflexivity|]. now rewrite IH.
Qed.

Lemma occurs_dict key (d : dict) :
  occurs key (VDict d) =
  (match lookup key d with Some _ => true | None => false end) ||
  existsb (fun kv => occurs key (snd kv)) d.
Proof.
  simpl. f_equal.
  induction d as [|[k v] r IH]; simpl; [reflexivity|]. now rewrite IH.
Qed.

Lemma occurs_list key (l : list any) :
  occurs key (VList l) = existsb (occurs key) l.
Proof.
  simpl. induction l as [|x r IH]; simpl; [reflexivity|]. now rewrite IH.
Qed.

Lemma flat_map_nil {A B} (f : A -> list B) (l : list A) :
  Forall (fun x => f x = []) l -> flat_map f l = [].
Proof.
  induction 1 as [|x l Hx _ IH]; simpl; [reflexivity|]. now rewrite Hx, IH.
Qed.

Lemma existsb_false_Forall {A} (f : A -> bool) (l : list A) :
  existsb f l = false <-> Forall (fun x => f x = false) l.
Proof.
  induction l as [|x l IH]; simpl.
  - split; [constructor | reflexivity].
  - rewrite orb_false_iff, IH. split.
    + intros [Hx Hl]. now constructor.
    + intro H. inversion H; subst. now split.
Qed.

(** The generator yields nothing exactly when the key is nowhere. *)
Lemma _deep_find_nil key obj :
  occurs key obj = false <-> _deep_find obj key = [].
Proof.
  induction obj as [| | | | |l IH|d IH] using any_ind;
    try (simpl; tauto).
  - rewrite occurs_list, _deep_find_list, existsb_false_Forall. split.
    + intro H. apply flat_map_nil.
      induction IH as [|x l Hx _ IHl]; inversion H; subst; constructor.
      * now apply Hx.
      * now apply IHl.
    + intro H.
      induction IH as [|x l Hx _ IHl]; simpl in H; constructor.
      * apply Hx. now destruct (app_eq_nil _ _ H).
      * apply IHl. now destruct (app_eq_nil _ _ H).
  - rewrite occurs_dict, _deep_find_dict, orb_false_iff, existsb_false_Forall.
    destruct (lookup key d) as [v|].
    + split; [intros [H _]; discriminate | discriminate].
    + simpl. split.
      * intros [_ H]. apply flat_map_nil.
        induction IH as [|x l Hx _ IHl]; inversion H; subst; constructor.
        -- now apply Hx.
        -- now apply IHl.
      * intro H. split; [reflexivity|].
        induction IH as [|x l Hx _ IHl]; simpl in H; constructor.
        -- apply Hx. now destruct (app_eq_nil _ _ H).
        -- apply IHl. now destruct (app_eq_nil _ _ H).
Qed.

Lemma flat_map_skip {A B} (f : A -> list B) before x after :
  Forall (fun y => f y = []) before ->
  flat_map f (before ++ x :: after) = (f x ++ flat_map f after)%list.
Proof.
  intro H. rewrite flat_map_app, (flat_map_nil _ _ H). reflexivity.
Qed.

(** The first value the generator yields is the one the walk meets first. *)
Lemma first_found_yielded key obj v :
  first_found key obj v -> exists more, _deep_find obj key = v :: more.
Proof.
  induction 1 as [d v Hown
                 |d before k x after v Hown -> Hbefore _ [more IH]
                 |l before x after v -> Hbefore _ [more IH]].
  - rewrite _deep_find_dict, Hown. simpl. eauto.
  - rewrite _deep_find_dict, Hown. simpl.
    rewrite flat_map_skip.
    + simpl. rewrite IH. simpl. eauto.
    + eapply Forall_impl; [|exact Hbefore]. intros kv Hkv. now apply _deep_find_nil.
  - rewrite _deep_find_list, flat_map_skip.
    + rewrite IH. simpl. eauto.
    + eapply Forall_impl; [|exact Hbefore]. intros y Hy. now apply _deep_find_nil.
Qed.

Lemma existsb_first {A} (f : A -> bool) (l : list A) :
  existsb f l = true ->
  exists before x after,
    l = (before ++ x :: after)%list /\
    Forall (fun y => f y = false) before /\ f x = true.
Proof.
  induction l as [|y l IH]; simpl; [discriminate|].
  destruct (f y) eqn:Hy; simpl.
  - intros _. exists [], y, l. repeat split; auto.
  - intro H. destruct (IH H) as (before & x & after & -> & Hb & Hx).
    exists (y :: before), x, after. repeat split; auto.
Qed.

(** A key that occurs is met by the walk. *)
Lemma occurs_first_found key obj :
  occurs key obj = true -> exists v, first_found key obj v.
Proof.
  induction obj as [| | | | |l IH|d IH] using any_ind; try discriminate.
  - rewrite occurs_list. intro H.
    destruct (existsb_first _ _ H) as (before & x & after & -> & Hb & Hx).
    rewrite Forall_forall in IH.
    destruct (IH x) as [v Hv]; [apply in_elt | exact Hx |].
    exists v. eapply found_in_item; eauto.
  - rewrite occurs_dict. destruct (lookup key d) as [v|] eqn:Hown.
    + intros _. exists v. now apply found_own.
    + simpl. intro H.
      destruct (existsb_first _ _ H) as (before & [k x] & after & -> & Hb & Hx).
      rewrite Forall_forall in IH.
      destruct (IH (k, x)) as [v Hv]; [apply in_elt | exact Hx |].
      exists v. eapply found_in_value; eauto.
Qed.

(** C7. When the snapshot has no [availableModes], or a null one, discovery
    takes the first value under a key [availableModes] that a depth-first
    walk of the device descriptor meets, a mapping's own key before its
    values, in insertion order, and the items of a sequence in order: when
    that value is a mapping, what discovery returns and logs are the
    presets of its settings.  Such a value exists as soon as the key occurs
    anywhere, and when the key occurs nowhere the modes value is [None] and
    there is no preset. *)
Theorem nested_modes_first_found
    (normalize : any -> any -> any) (data device : any) :
  truthy data = false \/
    (exists d, data = VDict d /\ dict_get d "availableModes" VNone = VNone) ->
  (forall v,
     first_found "availableModes" device v ->
     resolve_modes data device = Ok v /\
     presets_discovery normalize data device =
     presets_discovery normalize (VDict [("availableModes", v)]) device) /\
  (occurs "availableModes" device = true ->
     exists v, first_found "availableModes" device v) /\
  (occurs "availableModes" device = false ->
     resolve_modes data device = Ok VNone /\
     presets_discovery normalize data device =
     ([Log DEBUG "No available modes found" []], Ok [])) /\
  (forall m,
     first_found "availableModes" device (VDict m) ->
     presets_discovery normalize data device = discovered_from normalize m /\
     forall settings,
       dict_get m "settings" VNone = VList settings ->
       presets_discovery normalize data device =
       ([Log DEBUG "Discovered presets: %s"
           [VList (presets_of_settings normalize (command_prefix_of m) settings)]],
        Ok (presets_of_settings normalize (command_prefix_of m) settings))) /\
  (forall v,
     first_found "availableModes" device v ->
     is_dict v = false -> is_list v = false ->
     presets_discovery normalize data device =
     ([Log DEBUG "No available modes found" []], Ok [])).
Proof.
  intro Hdata.
  assert (Hres : resolve_modes data device =
                 Ok (next (_deep_find device "availableModes") VNone)).
  { destruct Hdata as [Hf | (d & -> & Hd)].
    - rewrite resolve_modes_readable.
      + destruct data as [| | | | | |d]; try reflexivity.
        destruct d; [reflexivity | discriminate].
      + unfold readable_snapshot. rewrite Hf. apply orb_true_r.
    - rewrite resolve_modes_readable by reflexivity. cbv zeta. now rewrite Hd. }
  assert (Hfound : forall v, first_found "availableModes" device v ->
                             resolve_modes data device = Ok v).
  { intros v Hv. destruct (first_found_yielded _ _ _ Hv) as [more Hy].
    now rewrite Hres, Hy. }
  split; [|split; [|split; [|split]]].
  - intros v Hv. destruct (first_found_yielded _ _ _ Hv) as [more Hy].
    split; [now apply Hfound|].
    rewrite (presets_discovery_resolved _ _ _ _ (Hfound v Hv)).
    symmetry. apply presets_discovery_resolved.
    rewrite resolve_modes_readable by reflexivity. cbv zeta.
    change (dict_get [("availableModes", v)] "availableModes" VNone) with v.
    destruct (is_none v) eqn:Hn; [|reflexivity].
    apply is_none_true in Hn. subst v. now rewrite Hy.
  - apply occurs_first_found.
  - intro Hno. apply _deep_find_nil in Hno. rewrite Hno in Hres. simpl in Hres.
    split; [exact Hres|].
    now rewrite (presets_discovery_resolved _ _ _ _ Hres).
  - intros m Hm.
    assert (Hrun : presets_discovery normalize data device = discovered_from normalize m).
    { rewrite (presets_discovery_resolved _ _ _ _ (Hfound _ Hm)). simpl.
      unfold discovered_from. destruct (dict_get m "settings" VNone); reflexivity. }
    split; [exact Hrun|].
    intros settings Hs. rewrite Hrun. unfold discovered_from. now rewrite Hs.
  - intros v Hv Hd Hl.
    rewrite (presets_discovery_resolved _ _ _ _ (Hfound _ Hv)).
    destruct v; try discriminate; reflexivity.
Qed.

(** *** Commands and names of the Threesixty presets *)

Lemma setting_command_synthesized prefix (s : dict) :
  lookup "command" s = None ->
  truthy prefix = true ->
  setting_value s <> VNone ->
  setting_command prefix s (setting_value s) =
  VStr (str prefix ++ " " ++ str (setting_value s)).
Proof.
  intros Hc Hp Hv. unfold setting_command, dict_get. rewrite Hc, Hp.
  apply is_none_false in Hv. now rewrite Hv.
Qed.

(** C5. On a Threesixty device whose modes have the command key [tune] and
    the settings [Eco] with value ["2"] and [Boost] with value ["0"],
    discovery yields the preset [eco] with command [tune 2] and value [2],
    then the preset [boost] with command [tune 0] and value [0].  A setting
    with no command of its own gets the prefix, a space and the value; the
    hook of the Threesixty models names the value ["2"] eco and the value
    ["0"] boost. *)
Theorem threesixty_scenario :
  let settings :=
    [VDict [("name", VStr "Eco"); ("value", VStr "2")];
     VDict [("name", VStr "Boost"); ("value", VStr "0")]] in
  let expected :=
    [VDict [("name", VStr PRESET_ECO); ("command", VStr "tune 2"); ("value", VStr "2")];
     VDict [("name", VStr PRESET_BOOST); ("command", VStr "tune 0"); ("value", VStr "0")]] in
  let modes := VDict [("settings", VList settings); ("command_key", VStr "tune")] in
  presets_of_settings DuuxThreesixtyBase._normalize_mode_name (VStr "tune") settings
    = expected /\
  (forall device,
     presets_discovery DuuxThreesixtyBase._normalize_mode_name
       (VDict [("availableModes", modes)]) device =
     ([Log DEBUG "Discovered presets: %s" [VList expected]], Ok expected)) /\
  (forall c data device self,
     outcome (DuuxThreesixtyBase.__init__ c data device) = Ok self ->
     outcome (presets_discovery DuuxThreesixtyBase._normalize_mode_name data device)
       = Ok (_presets self)) /\
  (forall prefix (s : dict),
     lookup "command" s = None ->
     truthy prefix = true ->
     setting_value s <> VNone ->
     setting_command prefix s (setting_value s) =
     VStr (str prefix ++ " " ++ str (setting_value s))) /\
  (forall name,
     DuuxThreesixtyBase._normalize_mode_name name (VStr "2") = VStr PRESET_ECO /\
     DuuxThreesixtyBase._normalize_mode_name name (VStr "0") = VStr PRESET_BOOST).
Proof.
  cbv zeta. split; [reflexivity|]. split; [reflexivity|].
  split; [|split; [exact setting_command_synthesized | split; reflexivity]].
  intros c data device self.
  unfold DuuxThreesixtyBase.__init__, DuuxClimateAutoDiscovery.__init__, lift, bind, ret, outcome.
  destruct (DuuxClimate.__init__ c device) as [base|e]; [|discriminate].
  destruct (presets_discovery _ data device) as [t [presets|e]]; simpl; [|discriminate].
  intro H. injection H as <-. reflexivity.
Qed.

End Discovery.

(** ** The entities *)

Section Entities.
Context {F : PyFloat}.
Variable client : api_call -> bool.

(** *** Power *)

(** C2, as the code has it. On every snapshot that is a mapping, [hvac_mode]
    is [HEAT] when the [power] field equals 1 ([True] and a float equal to
    1 included) and [OFF] otherwise, a missing field included. *)
Theorem hvac_mode_heat_iff_power_is_1 (d : dict) :
  exists mode,
    DuuxClimate.hvac_mode (VDict d) = Ok mode /\
    (mode = HEAT <-> py_eq_int (dict_get d "power" (VInt 0)) 1 = true) /\
    (mode = OFF <-> py_eq_int (dict_get d "power" (VInt 0)) 1 = false) /\
    (lookup "power" d = None -> mode = OFF).
Proof.
  unfold DuuxClimate.hvac_mode, get, dict_get.
  destruct (lookup "power" d) as [power|]; simpl.
  - destruct (py_eq_int power 1); eexists; (split; [reflexivity|]);
      repeat split; congruence.
  - exists OFF. repeat split; congruence.
Qed.

(** *** The presets of the Edge heater *)

Lemma edge_preset_mode_mapping (d : dict) :
  DuuxEdgeClimate.preset_mode (VDict d) =
  DuuxEdgeClimate.int_table_get
    [(1, DuuxEdgeClimate.PRESET_LOW); (2, DuuxEdgeClimate.PRESET_HIGH);
     (3, DuuxEdgeClimate.PRESET_BOOST)]
    (dict_get d "heatin" VNone) DuuxEdgeClimate.PRESET_LOW.
Proof. reflexivity. Qed.

Lemma edge_preset_mode_named (data : any) (name : string) :
  DuuxEdgeClimate.preset_mode data = Ok name ->
  name = DuuxEdgeClimate.PRESET_LOW \/ name = DuuxEdgeClimate.PRESET_HIGH \/
  name = DuuxEdgeClimate.PRESET_BOOST.
Proof.
  destruct data as [| | | | | |d]; try discriminate.
  rewrite edge_preset_mode_mapping. unfold DuuxEdgeClimate.int_table_get.
  destruct (hashable _); [|discriminate]. simpl.
  destruct (py_eq_int _ 1); [intro H; injection H as <-; auto|].
  destruct (py_eq_int _ 2); [intro H; injection H as <-; auto|].
  destruct (py_eq_int _ 3); intro H; injection H as <-; auto.
Qed.

(** C9. Setting the preset [PRESET_HIGH] of the Edge heater calls
    [set_mode] with the code 2, written ["2"], and then, the call having
    returned, asks for a refresh; on a snapshot whose [heatin] is 2,
    [preset_mode] is [PRESET_HIGH] again. *)
Theorem edge_preset_high_round_trip (self : entity) :
  let call := set_mode (_device_mac self) (VStr "2") in
  let run :=
    DuuxEdgeClimate.async_set_preset_mode client self DuuxEdgeClimate.PRESET_HIGH in
  trace run = Call call :: (if client call then [RequestRefresh] else []) /\
  (client call = true -> run = ([Call call; RequestRefresh], Ok tt)) /\
  (forall d,
     lookup "heatin" d = Some (VInt 2) ->
     DuuxEdgeClimate.preset_mode (VDict d) = Ok DuuxEdgeClimate.PRESET_HIGH) /\
  (forall d,
     hashable (dict_get d "heatin" VNone) = true ->
     py_eq_int (dict_get d "heatin" VNone) 2 = true ->
     DuuxEdgeClimate.preset_mode (VDict d) = Ok DuuxEdgeClimate.PRESET_HIGH).
Proof.
  cbv zeta.
  assert (Hread : forall d,
             hashable (dict_get d "heatin" VNone) = true ->
             py_eq_int (dict_get d "heatin" VNone) 2 = true ->
             DuuxEdgeClimate.preset_mode (VDict d) = Ok DuuxEdgeClimate.PRESET_HIGH).
  { intros d Hh H2. rewrite edge_preset_mode_mapping.
    unfold DuuxEdgeClimate.int_table_get. rewrite Hh. simpl.
    destruct (py_eq_int _ 1) eqn:H1.
    - pose proof (py_eq_int_inj _ _ _ H1 H2). discriminate.
    - now rewrite H2. }
  unfold DuuxEdgeClimate.async_set_preset_mode, executor_job, async_request_refresh,
    bind, trace.
  change (dict_get _ DuuxEdgeClimate.PRESET_HIGH (VInt 1)) with (VStr "2").
  repeat split.
  - destruct (client _); reflexivity.
  - intro H. now rewrite H.
  - intros d Hd. apply Hread; unfold dict_get; rewrite Hd; reflexivity.
  - exact Hread.
Qed.

(** What an Edge entity reports as its preset is a non-empty string. *)
Lemma edge_entity_preset_mode_string (self : entity) (data v : any) :
  cls self = Edge ->
  preset_mode self data = Ok v ->
  exists name, v = VStr name /\ name <> "".
Proof.
  unfold preset_mode. intros -> H.
  destruct (DuuxEdgeClimate.preset_mode data) as [name|e] eqn:Hn; [|discriminate].
  injection H as <-. exists name. split; [reflexivity|].
  destruct (edge_preset_mode_named _ _ Hn) as [-> | [-> | ->]]; discriminate.
Qed.

(** C10. When the Edge heater's [preset_mode] returns, it returns one of
    the three preset names, a non-empty string and not [None]; when
    [heatin] is missing, or is a code other than 1, 2 and 3, it returns the
    low preset [eco]. *)
Theorem edge_preset_mode_defaults_to_low (data : any) :
  (forall name, DuuxEdgeClimate.preset_mode data = Ok name -> name <> "") /\
  (forall self v,
     cls self = Edge -> preset_mode self data = Ok v ->
     exists name, v = VStr name /\ name <> "") /\
  (forall d,
     data = VDict d -> lookup "heatin" d = None ->
     DuuxEdgeClimate.preset_mode data = Ok DuuxEdgeClimate.PRESET_LOW) /\
  (forall d code,
     data = VDict d -> lookup "heatin" d = Some code ->
     hashable code = true ->
     py_eq_int code 1 = false -> py_eq_int code 2 = false -> py_eq_int code 3 = false ->
     DuuxEdgeClimate.preset_mode data = Ok DuuxEdgeClimate.PRESET_LOW).
Proof.
  split; [|split; [|split]].
  - intros name H. destruct (edge_preset_mode_named _ _ H) as [-> | [-> | ->]];
      discriminate.
  - intros self v. apply edge_entity_preset_mode_string.
  - intros d -> Hd. rewrite edge_preset_mode_mapping. unfold dict_get. now rewrite Hd.
  - intros d code -> Hd Hh H1 H2 H3. rewrite edge_preset_mode_mapping.
    unfold dict_get. rewrite Hd. unfold DuuxEdgeClimate.int_table_get.
    rewrite Hh. simpl. now rewrite H1, H2, H3.
Qed.

(** *** Setting a discovered preset *)

Lemma find_mode_command_first (presets : list any) (name : string) :
  Forall named_with_command presets ->
  match find (called name) presets with
  | None => DuuxClimateAutoDiscovery.find_mode_command presets name = Ok None
  | Some preset =>
      exists command,
        subscript preset "command" = Ok (VStr command) /\
        DuuxClimateAutoDiscovery.find_mode_command presets name =
          Ok (Some (VStr command))
  end.
Proof.
  induction 1 as [|preset r (n & c & Hn & _ & Hc) _ IH]; simpl; [reflexivity|].
  unfold called. rewrite Hn. simpl.
  destruct (String.eqb n name).
  - exists c. now rewrite Hc.
  - exact IH.
Qed.

(** C8. On an entity whose cached presets come from discovery, setting a
    preset that no cached preset is called raises [UnboundLocalError] and
    sends nothing; otherwise the command of the first preset so called is
    sent as [tune set] and the command, and then, the call having
    returned, a refresh is asked for. *)
Theorem set_preset_mode_first_match (self : entity) (name : string) :
  Forall named_with_command (_presets self) ->
  match find (called name) (_presets self) with
  | None =>
      DuuxClimateAutoDiscovery.async_set_preset_mode client self name =
      ([], Raise UnboundLocalError)
  | Some preset =>
      exists command,
        subscript preset "command" = Ok (VStr command) /\
        let call := send_command (_device_mac self) ("tune set " ++ command) in
        let run := DuuxClimateAutoDiscovery.async_set_preset_mode client self name in
        trace run = Call call :: (if client call then [RequestRefresh] else []) /\
        (client call = true -> run = ([Call call; RequestRefresh], Ok tt))
  end.
Proof.
  intro Hwf. pose proof (find_mode_command_first _ name Hwf) as H.
  unfold DuuxClimateAutoDiscovery.async_set_preset_mode.
  destruct (find (called name) (_presets self)) as [preset|].
  - destruct H as (command & Hc & ->). exists command. split; [exact Hc|].
    cbv zeta. unfold lift, bind, executor_job, async_request_refresh, trace. simpl.
    split.
    + destruct (client _); reflexivity.
    + intro Hr. now rewrite Hr.
  - rewrite H. reflexivity.
Qed.

(** *** Creating the entity of a device *)

Lemma base_init (c : climate_class) (d : dict) (id mac : any) :
  lookup "id" d = Some id ->
  lookup "deviceId" d = Some mac ->
  exists self,
    DuuxClimate.__init__ c (VDict d) = Ok self /\
    cls self = c /\ _device_mac self = mac /\ _presets self = [].
Proof.
  intros Hid Hmac. unfold DuuxClimate.__init__. simpl. rewrite Hid, Hmac.
  eexists. split; [reflexivity|]. repeat split.
Qed.

Lemma discovery_init (c : climate_class) normalize (data : any) (d : dict) (id mac : any) :
  lookup "id" d = Some id ->
  lookup "deviceId" d = Some mac ->
  readable_snapshot data = true ->
  exists msg args self,
    DuuxClimateAutoDiscovery.__init__ c normalize data (VDict d) =
      ([Log DEBUG msg args], Ok self) /\
    cls self = c /\ _device_mac self = mac /\
    Forall named_with_command (_presets self).
Proof.
  intros Hid Hmac Hdata.
  destruct (base_init c d id mac Hid Hmac) as (base & Hbase & Hc & Hm & _).
  destruct (presets_discovery_returns normalize data (VDict d) Hdata)
    as (presets & msg & args & Hrun & Hwf).
  exists msg, args, (with_presets presets base).
  unfold DuuxClimateAutoDiscovery.__init__. rewrite Hbase, Hrun.
  repeat split; auto.
Qed.

Lemma threesixty_init (c : climate_class) (data : any) (d : dict) (id mac : any) :
  lookup "id" d = Some id ->
  lookup "deviceId" d = Some mac ->
  readable_snapshot data = true ->
  exists msg args self,
    DuuxThreesixtyBase.__init__ c data (VDict d) = ([Log DEBUG msg args], Ok self) /\
    cls self = c /\ _device_mac self = mac /\
    Forall named_with_command (_presets self).
Proof.
  intros Hid Hmac Hdata.
  destruct (discovery_init c DuuxThreesixtyBase._normalize_mode_name data d id mac
              Hid Hmac Hdata) as (msg & args & self & Hrun & Hc & Hm & Hwf).
  exists msg, args, (with_temp_range 18 30 self).
  unfold DuuxThreesixtyBase.__init__. rewrite Hrun. repeat split; auto.
Qed.

(** Two codes cannot both be the one of the device. *)
Ltac solve_dispatch :=
  try congruence;
  match goal with
  | H1 : py_eq_int ?c ?m = true, H2 : py_eq_int ?c ?n = true |- _ =>
      pose proof (py_eq_int_inj _ _ _ H1 H2); discriminate
  | Hnone : forall n, ?P -> py_eq_int ?c n = false,
    H : ?P, H1 : py_eq_int ?c ?m = true |- _ =>
      rewrite (Hnone m H) in H1; discriminate
  end.

(** C4. For a device descriptor with its [id] and its [deviceId], whose
    coordinator is registered and has a snapshot that is a mapping or
    [None], creation returns an entity, of the class its [sensorTypeId]
    selects: 49 the Threesixty 2023, 50 the Edge, 31 the Threesixty Two,
    with no warning in the log; any other code, and a missing one, the
    generic discovery entity, with a warning that names the code. *)
Theorem create_entity_dispatch
    (coordinators : any -> option any) (d : dict) (id mac data : any) :
  lookup "id" d = Some id ->
  lookup "deviceId" d = Some mac ->
  hashable mac = true ->
  coordinators mac = Some data ->
  readable_snapshot data = true ->
  let code := dict_get d "sensorTypeId" VNone in
  let warning :=
    Log WARNING ("Unknown heater type " ++ str code ++ ", using generic entity") [] in
  exists t self,
    create_entity coordinators (VDict d) = (t, Ok self) /\
    _device_mac self = mac /\
    (py_eq_int code 49 = true -> cls self = Threesixty /\ existsb is_warning t = false) /\
    (py_eq_int code 50 = true -> cls self = Edge /\ existsb is_warning t = false) /\
    (py_eq_int code 31 = true -> cls self = ThreesixtyTwo /\ existsb is_warning t = false) /\
    (py_eq_int code 49 = false -> py_eq_int code 50 = false -> py_eq_int code 31 = false ->
     cls self = AutoDiscovery /\ filter is_warning t = [warning]) /\
    (lookup "sensorTypeId" d = None ->
     cls self = AutoDiscovery /\ filter is_warning t = [warning]).
Proof.
  intros Hid Hmac Hh Hco Hdata code warning.
  assert (Hmissing : lookup "sensorTypeId" d = None -> code = VNone).
  { intro H. unfold code, dict_get. now rewrite H. }
  unfold create_entity. unfold get, subscript, coordinator_of.
  rewrite Hmac. fold code. unfold lift at 1 2. unfold bind at 1 2.
  rewrite Hh, Hco. unfold lift at 1. unfold bind at 1.
  assert (Hnone : forall n, lookup "sensorTypeId" d = None -> py_eq_int code n = false).
  { intros n H. now rewrite (Hmissing H). }
  destruct (py_eq_int code 49) eqn:H49;
    [|destruct (py_eq_int code 50) eqn:H50;
      [|destruct (py_eq_int code 31) eqn:H31]].
  - destruct (threesixty_init Threesixty data d id mac Hid Hmac Hdata)
      as (msg & args & self & -> & Hc & Hm & _).
    exists [Log DEBUG msg args], self. simpl.
    repeat split; intros; auto; solve_dispatch.
  - destruct (base_init Edge d id mac Hid Hmac) as (base & Hbase & Hc & Hm & _).
    unfold DuuxEdgeClimate.__init__. rewrite Hbase.
    exists [], (with_temp_range 5 36 base). simpl.
    repeat split; intros; auto; solve_dispatch.
  - destruct (threesixty_init ThreesixtyTwo data d id mac Hid Hmac Hdata)
      as (msg & args & self & -> & Hc & Hm & _).
    exists [Log DEBUG msg args], self. simpl.
    repeat split; intros; auto; solve_dispatch.
  - destruct (discovery_init AutoDiscovery DuuxClimateAutoDiscovery._normalize_mode_name
                data d id mac Hid Hmac Hdata)
      as (msg & args & self & -> & Hc & Hm & _).
    exists [Log DEBUG msg args; warning], self. simpl.
    repeat split; intros; auto; solve_dispatch.
Qed.

End Entities.

(** ** The properties on concrete payloads *)

Section Concrete.
Local Existing Instance no_float.
Import DuuxClimateAutoDiscovery.

(** A snapshot whose [power] is 2 counts as on, and [hvac_mode] is [OFF]. *)
Lemma hvac_mode_power_2_is_off :
  truthy (dict_get [("power", VInt 2)] "power" (VInt 0)) = true /\
  py_eq_int (dict_get [("power", VInt 2)] "power" (VInt 0)) 0 = false /\
  DuuxClimate.hvac_mode (VDict [("power", VInt 2)]) = Ok OFF.
Proof. repeat split. Qed.

(** Three settings, of which one has no name and one is no mapping: the
    one preset discovered is that of the third. *)
Lemma presets_named_and_bounded_witness :
  let settings :=
    [VDict [("value", VInt 5)]; VStr "x";
     VDict [("name", VStr "Low"); ("value", VInt 1)]] in
  let low :=
    VDict [("name", VStr "Low"); ("command", VStr "1"); ("value", VStr "1")] in
  presets_discovery _normalize_mode_name
    (VDict [("availableModes", VDict [("settings", VList settings)])]) VNone =
  ([Log DEBUG "Discovered presets: %s" [VList [low]]], Ok [low]).
Proof.
  intros settings low.
  destruct (presets_named_and_bounded _normalize_mode_name VNone settings)
    as (_ & _ & _ & _ & _ & Hrun).
  exact (Hrun (VDict [("availableModes", VDict [("settings", VList settings)])]) VNone
           (VDict [("settings", VList settings)]) [("settings", VList settings)]
           eq_refl eq_refl eq_refl eq_refl).
Defined.

(** Modes that are a number, in a snapshot that is a mapping: no preset. *)
Lemma presets_discovery_never_raises_witness :
  readable_snapshot (VDict [("availableModes", VInt 7)]) = true /\
  exists msg args,
    presets_discovery _normalize_mode_name
      (VDict [("availableModes", VInt 7)]) (VList [VStr "x"]) =
    ([Log DEBUG msg args], Ok []).
Proof.
  split; [reflexivity|].
  destruct (presets_discovery_never_raises _normalize_mode_name
              (VDict [("availableModes", VInt 7)]) (VList [VStr "x"]) eq_refl)
    as (modes & presets & msg & args & Hres & Hrun & Hempty & _).
  injection Hres as <-. rewrite (Hempty eq_refl) in Hrun.
  exists msg, args. exact Hrun.
Defined.

(** An unknown code, 999, on a device with an empty snapshot. *)
Lemma create_entity_dispatch_witness :
  let coordinators := fun k => if py_eq_str k "AA:BB" then Some (VDict []) else None in
  let d := [("id", VInt 7); ("deviceId", VStr "AA:BB"); ("sensorTypeId", VInt 999)] in
  exists t self,
    create_entity coordinators (VDict d) = (t, Ok self) /\
    cls self = AutoDiscovery /\
    filter is_warning t =
      [Log WARNING "Unknown heater type 999, using generic entity" []].
Proof.
  intros coordinators d.
  destruct (create_entity_dispatch coordinators d (VInt 7) (VStr "AA:BB") (VDict [])
              eq_refl eq_refl eq_refl eq_refl eq_refl)
    as (t & self & Hrun & _ & _ & _ & _ & Hother & _).
  destruct (Hother eq_refl eq_refl eq_refl) as [Hc Hw].
  exists t, self. repeat split; assumption.
Defined.

(** The synthesized command of a setting with a value and no command. *)
Lemma threesixty_scenario_witness :
  setting_command (VStr "tune")
    [("name", VStr "Eco"); ("value", VStr "2")] (VStr "2") = VStr "tune 2".
Proof.
  destruct threesixty_scenario as (_ & _ & _ & Hsynth & _).
  apply (Hsynth (VStr "tune") [("name", VStr "Eco"); ("value", VStr "2")]);
    [reflexivity | reflexivity | discriminate].
Defined.

(** A sequence, nested in the descriptor, whose first item has empty
    settings and whose second has a setting: the presets are those of the
    second item, read with its key.  And the sequence of the scenario, in
    the snapshot. *)
Lemma sequence_of_modes_first_candidate_witness :
  let empty := VDict [("settings", VList [])] in
  let full :=
    [("key", VStr "mode");
     ("settings", VList [VDict [("name", VStr "Low"); ("value", VInt 1)]])] in
  let device :=
    VDict [("sensorType",
            VDict [("availableModes", VList [empty; VDict full; empty])])] in
  let low :=
    VDict [("name", VStr "Low"); ("command", VStr "mode 1"); ("value", VStr "1")] in
  presets_discovery _normalize_mode_name VNone device =
    ([Log DEBUG "Discovered presets: %s" [VList [low]]], Ok [low]) /\
  presets_discovery _normalize_mode_name
    (VDict [("availableModes", VList [empty; VDict [("other", VInt 1)]])]) VNone =
  ([Log DEBUG "No available modes found" []], Ok []).
Proof.
  intros empty full device low. split.
  - destruct (sequence_of_modes_first_candidate _normalize_mode_name VNone device
                [empty; VDict full; empty] eq_refl) as (_ & _ & _ & _ & Hfrom).
    destruct (Hfrom [empty] full [empty] eq_refl) as [_ Hrun].
    + repeat constructor.
    + reflexivity.
    + exact (Hrun [VDict [("name", VStr "Low"); ("value", VInt 1)]] eq_refl).
  - destruct (sequence_of_modes_first_candidate _normalize_mode_name
                (VDict [("availableModes", VList [empty; VDict [("other", VInt 1)]])])
                VNone [empty; VDict [("other", VInt 1)]] eq_refl)
      as (_ & _ & Hscenario & _).
    exact (Hscenario eq_refl).
Defined.

(** The top-level key of the descriptor is met before the one nested in an
    earlier value, and its settings are the ones discovered. *)
Lemma nested_modes_first_found_witness :
  let nested_modes :=
    VDict [("settings", VList [VDict [("name", VStr "High"); ("value", VInt 3)]])] in
  let own_modes :=
    [("key", VStr "mode");
     ("settings", VList [VDict [("name", VStr "Low"); ("value", VInt 1)]])] in
  let device :=
    VDict [("sensorType", VList [VDict [("availableModes", nested_modes)]]);
           ("availableModes", VDict own_modes)] in
  let low :=
    VDict [("name", VStr "Low"); ("command", VStr "mode 1"); ("value", VStr "1")] in
  resolve_modes VNone device = Ok (VDict own_modes) /\
  presets_discovery _normalize_mode_name VNone device =
    ([Log DEBUG "Discovered presets: %s" [VList [low]]], Ok [low]).
Proof.
  intros nested_modes own_modes device low.
  assert (Hfound : first_found "availableModes" device (VDict own_modes)).
  { apply found_own. reflexivity. }
  destruct (nested_modes_first_found _normalize_mode_name VNone device
              (or_introl eq_refl)) as (Hfirst & _ & _ & Hmapping & _).
  split.
  - exact (proj1 (Hfirst (VDict own_modes) Hfound)).
  - exact (proj2 (Hmapping own_modes Hfound)
             [VDict [("name", VStr "Low"); ("value", VInt 1)]] eq_refl).
Defined.

Lemma heater_presets_named : Forall named_with_command (_presets heater).
Proof.
  repeat constructor.
  - exists "eco", "tune 2". repeat split. discriminate.
  - exists "boost", "tune 0". repeat split. discriminate.
  - exists "boost", "tune 9". repeat split. discriminate.
Defined.

(** The first preset called [boost] is the one sent; [turbo] is no preset. *)
Lemma set_preset_mode_first_match_witness :
  DuuxClimateAutoDiscovery.async_set_preset_mode (fun _ => true) heater "boost" =
    ([Call (send_command (VStr "AA:BB") "tune set tune 0"); RequestRefresh], Ok tt) /\
  DuuxClimateAutoDiscovery.async_set_preset_mode (fun _ => true) heater "turbo" =
    ([], Raise UnboundLocalError).
Proof.
  split.
  - destruct (set_preset_mode_first_match (fun _ => true) heater "boost"
                heater_presets_named) as (command & Hc & _ & Hrun).
    injection Hc as <-. exact (Hrun eq_refl).
  - exact (set_preset_mode_first_match (fun _ => true) heater "turbo"
             heater_presets_named).
Defined.

(** The Edge heater: [comfort] is sent as ["2"] and read back from 2. *)
Lemma edge_preset_high_round_trip_witness :
  DuuxEdgeClimate.async_set_preset_mode (fun _ => true) edge_heater "comfort" =
    ([Call (set_mode (VStr "CC:DD") (VStr "2")); RequestRefresh], Ok tt) /\
  DuuxEdgeClimate.preset_mode (VDict [("temp", VInt 21); ("heatin", VInt 2)]) =
    Ok "comfort".
Proof.
  destruct (edge_preset_high_round_trip (fun _ => true) edge_heater)
    as (_ & Hrun & Hread & _).
  split; [exact (Hrun eq_refl)|].
  exact (Hread [("temp", VInt 21); ("heatin", VInt 2)] eq_refl).
Defined.

(** The Edge heater with no [heatin], and with the code 7. *)
Lemma edge_preset_mode_defaults_to_low_witness :
  DuuxEdgeClimate.preset_mode (VDict [("temp", VInt 21)]) = Ok "eco" /\
  DuuxEdgeClimate.preset_mode (VDict [("heatin", VInt 7)]) = Ok "eco".
Proof.
  split.
  - destruct (edge_preset_mode_defaults_to_low (VDict [("temp", VInt 21)]))
      as (_ & _ & Hmissing & _).
    exact (Hmissing [("temp", VInt 21)] eq_refl eq_refl).
  - destruct (edge_preset_mode_defaults_to_low (VDict [("heatin", VInt 7)]))
      as (_ & _ & _ & Hother).
    exact (Hother [("heatin", VInt 7)] (VInt 7)
             eq_refl eq_refl eq_refl eq_refl eq_refl eq_refl).
Defined.

(** A [heatin] that cannot be hashed makes the table lookup raise. *)
Example edge_preset_mode_unhashable :
  DuuxEdgeClimate.preset_mode (VDict [("heatin", VList [VInt 2])]) = Raise TypeError.
Proof. reflexivity. Qed.

(** A snapshot that is [None] makes [hvac_mode] raise. *)
Example hvac_mode_no_snapshot : DuuxClimate.hvac_mode VNone = Raise AttributeError.
Proof. reflexivity. Qed.

End Concrete.

(** * Further properties *)

(** ** Discovery *)

Section FurtherDiscovery.
Context {F : PyFloat}.
Import DuuxClimateAutoDiscovery.

(** X1. [_deep_find] yields exactly the values stored under the key in the
    mappings nested in the object, the object itself included. *)
Theorem deep_find_yields_nested_values (obj : any) (key : string) (v : any) :
  In v (_deep_find obj key) <->
  exists d, nested (VDict d) obj /\ lookup key d = Some v.
Proof.
  split.
  - revert v. induction obj as [| | | | |l IH|d0 IH] using any_ind;
      intros v Hv; try contradiction.
    + rewrite _deep_find_list in Hv. apply in_flat_map in Hv.
      destruct Hv as (item & Hitem & Hin).
      rewrite Forall_forall in IH.
      destruct (IH item Hitem v Hin) as (d & Hn & Hd).
      exists d. split; [|exact Hd]. eapply nested_item; eauto.
    + rewrite _deep_find_dict in Hv. apply in_app_or in Hv.
      destruct Hv as [Hown | Hin].
      * exists d0. split; [constructor|].
        destruct (lookup key d0) as [w|]; [|contradiction].
        destruct Hown as [-> | []]. reflexivity.
      * apply in_flat_map in Hin. destruct Hin as ([k x] & Hkx & Hin).
        rewrite Forall_forall in IH.
        destruct (IH (k, x) Hkx v Hin) as (d & Hn & Hd).
        exists d. split; [|exact Hd]. eapply nested_value; eauto.
  - intros (d & Hn & Hd).
    remember (VDict d) as inner eqn:Hinner.
    induction Hn as [|d0 k x Hkx _ IH|l item Hitem _ IH]; subst.
    + rewrite _deep_find_dict, Hd. apply in_or_app. left. now left.
    + rewrite _deep_find_dict. apply in_or_app. right.
      apply in_flat_map. exists (k, x). split; [exact Hkx | now apply IH].
    + rewrite _deep_find_list. apply in_flat_map.
      exists item. split; [exact Hitem | now apply IH].
Qed.

(** X2. The presets follow the order of the settings, each setting on its
    own: the presets of two lists put end to end are the presets of the
    first followed by the presets of the second. *)
Theorem presets_follow_settings_order
    (normalize : any -> any -> any) (prefix : any) (first second : list any) :
  presets_of_settings normalize prefix (first ++ second) =
  (presets_of_settings normalize prefix first ++
   presets_of_settings normalize prefix second)%list.
Proof.
  induction first as [|setting r IH]; simpl; [reflexivity|].
  destruct (preset_of_setting normalize prefix setting); simpl; now rewrite IH.
Qed.

(** X3. Modes present in the snapshot shadow the device descriptor: with an
    [availableModes] that is not null in the snapshot, discovery gives the
    same presets and the same log whatever the descriptor is. *)
Theorem snapshot_modes_shadow_descriptor
    (normalize : any -> any -> any) (d : dict) (modes device device' : any) :
  lookup "availableModes" d = Some modes ->
  modes <> VNone ->
  resolve_modes (VDict d) device = Ok modes /\
  presets_discovery normalize (VDict d) device =
  presets_discovery normalize (VDict d) device'.
Proof.
  intros Hd Hm.
  assert (Hres : forall dev, resolve_modes (VDict d) dev = Ok modes).
  { intro dev. rewrite resolve_modes_readable by reflexivity. cbv zeta.
    unfold dict_get. rewrite Hd. apply is_none_false in Hm. now rewrite Hm. }
  split; [apply Hres|].
  now rewrite (presets_discovery_resolved _ _ _ _ (Hres device)),
              (presets_discovery_resolved _ _ _ _ (Hres device')).
Qed.

Lemma setting_command_none prefix (s : dict) (value : any) :
  setting_command prefix s value = VNone <->
  dict_get s "command" VNone = VNone /\ value = VNone.
Proof.
  unfold setting_command.
  destruct (dict_get s "command" VNone) eqn:Hc; simpl;
    try (split; [discriminate | intros [H _]; discriminate]).
  destruct (truthy prefix); simpl.
  - destruct value; simpl; split; try discriminate; auto;
      intros [_ H]; discriminate.
  - split; auto. now intros [_ H].
Qed.

(** X4. A setting that is a mapping gives no preset exactly when its
    normalized name counts as false, or it has neither a command nor a
    value; the command prefix plays no part in it. *)
Theorem preset_omitted_iff
    (normalize : any -> any -> any) (prefix : any) (s : dict) :
  preset_of_setting normalize prefix (VDict s) = None <->
  truthy (normalize (setting_name s) (setting_value s)) = false \/
  (dict_get s "command" VNone = VNone /\ setting_value s = VNone).
Proof.
  rewrite preset_of_setting_none, setting_command_none. reflexivity.
Qed.

(** X5. On the Threesixty models a setting whose value is the string 2, 1
    or 0 always gives a preset, called eco, comfort or boost, whatever the
    setting's own name is, even with none; its value is kept. *)
Theorem threesixty_values_name_presets (prefix : any) (s : dict) (v label : string) :
  In (v, label) [("2", PRESET_ECO); ("1", PRESET_COMFORT); ("0", PRESET_BOOST)] ->
  setting_value s = VStr v ->
  exists command,
    preset_of_setting DuuxThreesixtyBase._normalize_mode_name prefix (VDict s) =
    Some (VDict [("name", VStr label); ("command", VStr command); ("value", VStr v)]).
Proof.
  intros Hin Hv.
  assert (Hc : is_none (setting_command prefix s (VStr v)) = false).
  { apply is_none_false. intro H. apply setting_command_none in H.
    destruct H as [_ H]. discriminate. }
  exists (str (setting_command prefix s (VStr v))).
  unfold preset_of_setting. rewrite Hv.
  destruct Hin as [H | [H | [H | []]]]; injection H as <- <-;
    simpl; rewrite Hc; reflexivity.
Qed.

End FurtherDiscovery.

(** ** The discovery entity and its cached presets *)

Section FurtherPresets.
Context {F : PyFloat}.
Import DuuxClimateAutoDiscovery.

Lemma preset_of_setting_discovered normalize prefix setting preset :
  preset_of_setting normalize prefix setting = Some preset -> discovered preset.
Proof.
  intro H. apply preset_of_setting_shape in H.
  destruct H as (s & name & command & _ & Hn & _ & _ & _ & ->).
  exists (str name), (str command). eexists. split; [reflexivity|].
  split; [now apply str_truthy_nonempty|].
  destruct (is_none (setting_value s)); eauto.
Qed.

Lemma presets_of_settings_discovered normalize prefix settings :
  Forall discovered (presets_of_settings normalize prefix settings).
Proof.
  induction settings as [|setting r IH]; simpl; [constructor|].
  destruct (preset_of_setting normalize prefix setting) eqn:H; auto.
  constructor; auto. eapply preset_of_setting_discovered; eauto.
Qed.

Lemma presets_discovery_discovered normalize data device t presets :
  presets_discovery normalize data device = (t, Ok presets) ->
  Forall discovered presets.
Proof.
  destruct (readable_snapshot data) eqn:Hdata.
  - rewrite (presets_discovery_resolved _ _ _ _ (resolve_modes_readable _ _ Hdata)).
    destruct (select_modes _) as [| | | | | |m].
    7: destruct (dict_get m "settings" VNone).
    all: intro H; injection H as _ <-; try constructor.
    apply presets_of_settings_discovered.
  - rewrite (presets_discovery_unreadable normalize data device Hdata). discriminate.
Qed.

Lemma init_presets_discovered c normalize data device t self :
  __init__ c normalize data device = (t, Ok self) ->
  Forall discovered (_presets self).
Proof.
  unfold __init__, lift, bind, ret.
  destruct (DuuxClimate.__init__ c device) as [base|e]; [|discriminate].
  destruct (presets_discovery normalize data device) as [t' [presets|e]] eqn:Hrun;
    [|discriminate].
  intro H. injection H as _ <-. simpl. eapply presets_discovery_discovered; eauto.
Qed.

Lemma preset_modes_of_discovered (presets : list any) :
  Forall discovered presets ->
  exists names,
    preset_modes_of presets = Ok names /\
    Forall2 (fun preset n => subscript preset "name" = Ok n) presets names /\
    Forall (fun n => exists s, n = VStr s /\ s <> "") names.
Proof.
  induction 1 as [|preset r (n & c & v & -> & Hn & _) _ (names & Hrun & Hall & Hstr)].
  - exists []. repeat split; constructor.
  - exists (VStr n :: names). simpl. rewrite Hrun.
    repeat split; constructor; eauto.
Qed.

Lemma find_preset_name_first (presets : list any) (mode : string) :
  Forall discovered presets ->
  match find (valued mode) presets with
  | Some preset =>
      exists name,
        subscript preset "name" = Ok (VStr name) /\
        find_preset_name presets mode = Ok (VStr name)
  | None => find_preset_name presets mode = Ok VNone
  end.
Proof.
  induction 1 as [|preset r (n & c & v & -> & Hn & _) _ IH]; simpl; [reflexivity|].
  unfold valued. simpl.
  destruct (py_eq_str v mode); [|exact IH].
  exists n. split; reflexivity.
Qed.

(** X6. On every entity the discovery constructor returns, [preset_modes]
    returns, with one name for each cached preset, in order, each a
    non-empty string. *)
Theorem constructed_preset_modes
    c (normalize : any -> any -> any) (data device : any) t (self : entity) :
  __init__ c normalize data device = (t, Ok self) ->
  exists names,
    preset_modes self = Ok names /\
    Forall2 (fun preset n => subscript preset "name" = Ok n) (_presets self) names /\
    Forall (fun n => exists s, n = VStr s /\ s <> "") names.
Proof.
  intro Hinit. apply preset_modes_of_discovered.
  eapply init_presets_discovered; eauto.
Qed.

(** X7. On such an entity and a snapshot that is a mapping, [preset_mode]
    is the name of the first cached preset whose value is [str(mode)], and
    [None] when there is none. *)
Theorem constructed_preset_mode_first_value
    c (normalize : any -> any -> any) (data device : any) t (self : entity)
    (snapshot : dict) :
  __init__ c normalize data device = (t, Ok self) ->
  match find (valued (str (dict_get snapshot "mode" VNone))) (_presets self) with
  | Some preset =>
      exists name,
        subscript preset "name" = Ok (VStr name) /\
        preset_mode self (VDict snapshot) = Ok (VStr name)
  | None => preset_mode self (VDict snapshot) = Ok VNone
  end.
Proof.
  intro Hinit. unfold preset_mode. simpl.
  apply find_preset_name_first. eapply init_presets_discovered; eauto.
Qed.

Lemma Forall2_In_l {A B} (R : A -> B -> Prop) (l : list A) (l' : list B) (x : A) :
  Forall2 R l l' -> In x l -> exists y, In y l' /\ R x y.
Proof.
  induction 1 as [|a b l l' Hab _ IH]; [contradiction|].
  intros [<- | Hx].
  - exists b. split; [now left | exact Hab].
  - destruct (IH Hx) as (y & Hy & Hr). exists y. split; [now right | exact Hr].
Qed.

(** X8. The preset such an entity reports, when it reports one, is one of
    the names [preset_modes] lists. *)
Theorem constructed_preset_mode_listed
    c (normalize : any -> any -> any) (data device : any) t (self : entity)
    (snapshot v : any) :
  __init__ c normalize data device = (t, Ok self) ->
  preset_mode self snapshot = Ok v ->
  v <> VNone ->
  exists names, preset_modes self = Ok names /\ In v names.
Proof.
  intros Hinit Hmode Hv.
  pose proof (init_presets_discovered _ _ _ _ _ _ Hinit) as Hwf.
  destruct (preset_modes_of_discovered _ Hwf) as (names & Hnames & Hall & _).
  exists names. split; [exact Hnames|].
  unfold preset_mode in Hmode.
  destruct (get snapshot "mode" VNone) as [mode|e]; [|discriminate].
  pose proof (find_preset_name_first _ (str mode) Hwf) as Hfirst.
  destruct (find (valued (str mode)) (_presets self)) as [preset|] eqn:Hfind.
  - destruct Hfirst as (name & Hname & Hrun).
    rewrite Hrun in Hmode. injection Hmode as <-.
    apply find_some in Hfind. destruct Hfind as [Hin _].
    destruct (Forall2_In_l _ _ _ _ Hall Hin) as (n & Hn & Hsub).
    rewrite Hname in Hsub. injection Hsub as <-. exact Hn.
  - rewrite Hfirst in Hmode. injection Hmode as <-. contradiction.
Qed.

(** X9. The properties read the snapshot with no guard: on a snapshot that
    is no mapping, [None] before the first refresh included, each of them
    raises [AttributeError], where discovery only finds nothing. *)
Theorem properties_need_a_mapping (self : entity) (data : any) :
  is_dict data = false ->
  DuuxClimate.current_temperature data = Raise AttributeError /\
  DuuxClimate.target_temperature data = Raise AttributeError /\
  DuuxClimate.hvac_mode data = Raise AttributeError /\
  preset_mode self data = Raise AttributeError /\
  DuuxEdgeClimate.preset_mode data = Raise AttributeError.
Proof.
  destruct data; try discriminate; intros _; repeat split.
Qed.

End FurtherPresets.

(** ** Commands, and what is read back *)

Section FurtherCommands.
Context {F : PyFloat}.
Variable client : api_call -> bool.

(** X10. Every preset the Edge heater lists makes a round trip: setting it
    calls [set_mode] with its code 1, 2 or 3, written as a string, and on a
    snapshot whose [heatin] is that code [preset_mode] is the preset. *)
Theorem edge_presets_round_trip (self : entity) (name : string) :
  In name DuuxEdgeClimate.preset_modes ->
  exists k,
    1 <= k <= 3 /\
    let call := set_mode (_device_mac self) (VStr (repr_int k)) in
    trace (DuuxEdgeClimate.async_set_preset_mode client self name) =
      Call call :: (if client call then [RequestRefresh] else []) /\
    forall d, lookup "heatin" d = Some (VInt k) ->
              DuuxEdgeClimate.preset_mode (VDict d) = Ok name.
Proof.
  assert (Hset : forall k,
             dict_get [(DuuxEdgeClimate.PRESET_LOW, VStr "1");
                       (DuuxEdgeClimate.PRESET_HIGH, VStr "2");
                       (DuuxEdgeClimate.PRESET_BOOST, VStr "3")] name (VInt 1)
               = VStr (repr_int k) ->
             trace (DuuxEdgeClimate.async_set_preset_mode client self name) =
             Call (set_mode (_device_mac self) (VStr (repr_int k))) ::
               (if client (set_mode (_device_mac self) (VStr (repr_int k)))
                then [RequestRefresh] else [])).
  { intros k Hk. unfold DuuxEdgeClimate.async_set_preset_mode. rewrite Hk.
    unfold executor_job, async_request_refresh, bind, trace.
    destruct (client _); reflexivity. }
  assert (Hread : forall k d,
             In (k, name) [(1, DuuxEdgeClimate.PRESET_LOW);
                           (2, DuuxEdgeClimate.PRESET_HIGH);
                           (3, DuuxEdgeClimate.PRESET_BOOST)] ->
             lookup "heatin" d = Some (VInt k) ->
             DuuxEdgeClimate.preset_mode (VDict d) = Ok name).
  { intros k d Hk Hd. unfold DuuxEdgeClimate.preset_mode, get, dict_get.
    rewrite Hd. destruct Hk as [H | [H | [H | []]]]; injection H as <- <-;
      reflexivity. }
  intros [<- | [<- | [<- | []]]]; [exists 1 | exists 2 | exists 3];
    (split; [lia|]); cbv zeta;
    (split; [apply Hset; reflexivity | intros d; apply Hread; simpl; auto]).
Qed.

(** X11. A name the Edge heater does not list is not refused: [set_mode]
    is called with the integer 1, the low mode, where a listed preset sends
    a string. *)
Theorem edge_unlisted_preset_sends_low (self : entity) (name : string) :
  ~ In name DuuxEdgeClimate.preset_modes ->
  let call := set_mode (_device_mac self) (VInt 1) in
  trace (DuuxEdgeClimate.async_set_preset_mode client self name) =
    Call call :: (if client call then [RequestRefresh] else []).
Proof.
  intro Hout. cbv zeta.
  unfold DuuxEdgeClimate.async_set_preset_mode, dict_get. cbn [lookup].
  destruct (String.eqb_spec DuuxEdgeClimate.PRESET_LOW name) as [<- | _];
    [exfalso; apply Hout; simpl; auto|].
  destruct (String.eqb_spec DuuxEdgeClimate.PRESET_HIGH name) as [<- | _];
    [exfalso; apply Hout; simpl; auto|].
  destruct (String.eqb_spec DuuxEdgeClimate.PRESET_BOOST name) as [<- | _];
    [exfalso; apply Hout; simpl; auto|].
  unfold executor_job, async_request_refresh, bind, trace.
  destruct (client _); reflexivity.
Qed.

(** X12. The preset the Edge heater reports is one of those it lists. *)
Theorem edge_preset_mode_listed (data : any) (name : string) :
  DuuxEdgeClimate.preset_mode data = Ok name ->
  In name DuuxEdgeClimate.preset_modes.
Proof.
  intro H. destruct (edge_preset_mode_named _ _ H) as [-> | [-> | ->]];
    simpl; auto.
Qed.

(** X13. Power makes a round trip for [HEAT] and [OFF] only: [HEAT] calls
    [set_power] with [True] and every other mode with [False]; on a
    snapshot whose [power] is the flag sent, [hvac_mode] is [HEAT] for
    [HEAT] and [OFF] for every other mode. *)
Theorem power_round_trip (self : entity) (mode : HVACMode) :
  exists on,
    (on = true <-> mode = HEAT) /\
    let call := set_power (_device_mac self) on in
    trace (DuuxClimate.async_set_hvac_mode client self mode) =
      Call call :: (if client call then [RequestRefresh] else []) /\
    forall d, lookup "power" d = Some (VBool on) ->
              DuuxClimate.hvac_mode (VDict d) = Ok (if on then HEAT else OFF).
Proof.
  exists (HVACMode_eqb mode HEAT). split; [destruct mode; simpl; split; congruence|].
  cbv zeta. split.
  - unfold DuuxClimate.async_set_hvac_mode, executor_job, async_request_refresh,
      bind, trace.
    destruct (HVACMode_eqb mode HEAT); destruct (client _); reflexivity.
  - intros d Hd. unfold DuuxClimate.hvac_mode, get, dict_get. rewrite Hd.
    destruct (HVACMode_eqb mode HEAT); reflexivity.
Qed.

(** X14. No operation asks for a refresh unless its call of the client has
    returned, and none makes more than one call: setting the temperature,
    the HVAC mode or a preset, on any entity, stops before the call, or
    ends with the call that raised, or makes the call and then asks for one
    refresh. *)
Theorem refresh_only_after_the_call
    (self : entity) (temperature : any) (mode : HVACMode) (name : string) :
  one_call_then_refresh client (DuuxClimate.async_set_temperature client self temperature) /\
  one_call_then_refresh client (DuuxClimate.async_set_hvac_mode client self mode) /\
  one_call_then_refresh client (DuuxClimate.async_set_preset_mode self name) /\
  one_call_then_refresh client (DuuxEdgeClimate.async_set_preset_mode client self name) /\
  one_call_then_refresh client
    (DuuxClimateAutoDiscovery.async_set_preset_mode client self name) /\
  one_call_then_refresh client (async_set_preset_mode client self name).
Proof.
  assert (Hjob : forall c,
             one_call_then_refresh client
               (bind (executor_job client c) (fun _ => async_request_refresh))).
  { intro c. unfold executor_job, async_request_refresh, bind.
    destruct (client c) eqn:Hc; now constructor. }
  assert (Hedge : one_call_then_refresh client
                    (DuuxEdgeClimate.async_set_preset_mode client self name)).
  { apply Hjob. }
  assert (Hauto : one_call_then_refresh client
                    (DuuxClimateAutoDiscovery.async_set_preset_mode client self name)).
  { unfold DuuxClimateAutoDiscovery.async_set_preset_mode, lift.
    destruct (DuuxClimateAutoDiscovery.find_mode_command _ _) as [[command|]|e].
    - unfold bind at 1. cbv iota beta.
      pose proof (Hjob (send_command (_device_mac self) ("tune set " ++ str command)))
        as H.
      destruct (bind _ _) as [t r]. exact H.
    - constructor.
    - constructor. }
  repeat split; auto.
  - unfold DuuxClimate.async_set_temperature.
    destruct (is_none temperature); [constructor | apply Hjob].
  - unfold DuuxClimate.async_set_hvac_mode.
    destruct (HVACMode_eqb mode HEAT); apply Hjob.
  - constructor.
  - unfold async_set_preset_mode. destruct (cls self); assumption.
Qed.

End FurtherCommands.

(** ** Setting up, and the attributes of the entities *)

Section FurtherSetup.
Context {F : PyFloat}.

Lemma base_init_attrs (c : climate_class) (device : any) (self : entity) :
  DuuxClimate.__init__ c device = Ok self ->
  cls self = c /\ _device self = device /\
  subscript device "id" = Ok (_device_id self) /\
  subscript device "deviceId" = Ok (_device_mac self) /\
  _attr_unique_id self = "duux_" ++ str (_device_id self) /\
  _attr_min_temp self = 18 /\ _attr_max_temp self = 30 /\
  _attr_target_temperature_step self = 1 /\
  _attr_hvac_modes self = [OFF; HEAT] /\
  _presets self = [].
Proof.
  unfold DuuxClimate.__init__.
  destruct (subscript device "id") as [id|e]; [|discriminate].
  destruct (subscript device "deviceId") as [mac|e]; [|discriminate].
  destruct (get device "displayName" VNone) as [display|e];
    destruct (get device "name" VNone) as [name|e']; try discriminate.
  intro H. injection H as <-. simpl. repeat split.
Qed.

Lemma bind_lift_ok {A B} (a : A) (k : A -> M B) : bind (lift (Ok a)) k = k a.
Proof. unfold bind, lift. destruct (k a). reflexivity. Qed.

Lemma bind_lift_raise {A B} (e : exn) (k : A -> M B) :
  bind (lift (Raise e)) k = ([], Raise e).
Proof. reflexivity. Qed.

(** What [create_entity] returns is the entity of the base constructor,
    with the presets and the range of its class. *)
Lemma create_entity_returns coordinators (device : any) t (self : entity) :
  create_entity coordinators device = (t, Ok self) ->
  exists base presets,
    DuuxClimate.__init__ (cls self) device = Ok base /\
    (cls self = Edge /\ self = with_temp_range 5 36 base \/
     cls self <> Edge /\ self = with_temp_range 18 30 (with_presets presets base) \/
     cls self = AutoDiscovery /\ self = with_presets presets base).
Proof.
  unfold create_entity.
  destruct (get device "sensorTypeId" VNone) as [code|e]; [|discriminate].
  rewrite bind_lift_ok.
  destruct (subscript device "deviceId") as [mac|e]; [|discriminate].
  rewrite bind_lift_ok.
  destruct (coordinator_of coordinators mac) as [data|e]; [|discriminate].
  rewrite bind_lift_ok.
  assert (Hdisc : forall c normalize t' e',
             DuuxClimateAutoDiscovery.__init__ c normalize data device = (t', Ok e') ->
             exists base presets,
               DuuxClimate.__init__ c device = Ok base /\ e' = with_presets presets base).
  { intros c normalize t' e'.
    unfold DuuxClimateAutoDiscovery.__init__, lift, bind, ret.
    destruct (DuuxClimate.__init__ c device) as [base|e]; [|discriminate].
    destruct (DuuxClimateAutoDiscovery.presets_discovery normalize data device)
      as [t'' [presets|e]]; [|discriminate].
    intro H. injection H as _ <-. eauto. }
  assert (Hthree : forall c t' e',
             DuuxThreesixtyBase.__init__ c data device = (t', Ok e') ->
             exists base presets,
               DuuxClimate.__init__ c device = Ok base /\
               e' = with_temp_range 18 30 (with_presets presets base)).
  { intros c t' e'. unfold DuuxThreesixtyBase.__init__, bind, ret.
    destruct (DuuxClimateAutoDiscovery.__init__ c _ data device)
      as [t'' [e''|e]] eqn:Hinit; [|discriminate].
    intro H. injection H as _ <-.
    destruct (Hdisc _ _ _ _ Hinit) as (base & presets & Hb & ->). eauto. }
  destruct (py_eq_int code 49);
    [|destruct (py_eq_int code 50); [|destruct (py_eq_int code 31)]].
  - intro H. destruct (Hthree _ _ _ H) as (base & presets & Hb & ->).
    destruct (base_init_attrs _ _ _ Hb) as (Hc & _).
    exists base, presets. simpl. rewrite Hc. split; [exact Hb|].
    right. left. split; [discriminate | reflexivity].
  - unfold DuuxEdgeClimate.__init__, lift.
    destruct (DuuxClimate.__init__ Edge device) as [base|e] eqn:Hb; [|discriminate].
    intro H. injection H as _ <-.
    destruct (base_init_attrs _ _ _ Hb) as (Hc & _).
    exists base, []. simpl. rewrite Hc. split; [exact Hb|]. left. now split.
  - intro H. destruct (Hthree _ _ _ H) as (base & presets & Hb & ->).
    destruct (base_init_attrs _ _ _ Hb) as (Hc & _).
    exists base, presets. simpl. rewrite Hc. split; [exact Hb|].
    right. left. split; [discriminate | reflexivity].
  - unfold bind, log, ret.
    destruct (DuuxClimateAutoDiscovery.__init__ AutoDiscovery _ data device)
      as [t' [e'|e]] eqn:Hinit; [|discriminate].
    intro H. injection H as _ <-.
    destruct (Hdisc _ _ _ _ Hinit) as (base & presets & Hb & ->).
    destruct (base_init_attrs _ _ _ Hb) as (Hc & _).
    exists base, presets. simpl. rewrite Hc. split; [exact Hb|].
    right. right. now split.
Qed.

(** X15. Every entity [create_entity] returns has the range of its class,
    5 to 36 degrees for the Edge heater and 18 to 30 for the others, the
    step 1 and the two modes [OFF] and [HEAT]. *)
Theorem created_entity_range coordinators (device : any) t (self : entity) :
  create_entity coordinators device = (t, Ok self) ->
  (_attr_min_temp self, _attr_max_temp self) =
    (if match cls self with Edge => true | _ => false end then (5, 36) else (18, 30)) /\
  _attr_min_temp self < _attr_max_temp self /\
  _attr_target_temperature_step self = 1 /\
  _attr_hvac_modes self = [OFF; HEAT].
Proof.
  intro H. destruct (create_entity_returns _ _ _ _ H) as (base & presets & Hb & Hself).
  destruct (base_init_attrs _ _ _ Hb) as (_ & _ & _ & _ & _ & Hmin & Hmax & Hstep & Hmodes & _).
  destruct Hself as [[Hc Hs] | [[Hc Hs] | [Hc Hs]]]; rewrite Hs in *; simpl in *.
  - rewrite Hc. repeat split; auto.
  - destruct (cls base); try congruence; repeat split; auto.
  - rewrite Hc, Hmin, Hmax. repeat split; auto.
Qed.

Lemma repr_int_inj (m n : Z) : repr_int m = repr_int n -> m = n.
Proof.
  unfold repr_int. intro H.
  assert (Hnil : forall k, Z.to_int k <> Decimal.Pos Decimal.Nil /\
                           Z.to_int k <> Decimal.Neg Decimal.Nil).
  { intros [|p|p]; simpl; split; try discriminate;
      intro Hk; injection Hk as Hk; now apply (DecimalPos.Unsigned.to_uint_nonnil p). }
  apply DecimalZ.to_int_inj.
  destruct (Hnil m) as [Hm1 Hm2], (Hnil n) as [Hn1 Hn2].
  pose proof (NilZero.isi _ Hm1 Hm2) as Hm.
  pose proof (NilZero.isi _ Hn1 Hn2) as Hn.
  rewrite H in Hm. congruence.
Qed.

(** X16. Entities created for devices whose [id] are integers have the same
    unique id exactly when the integers are the same. *)
Theorem unique_ids_of_integer_ids
    coordinators (device device' : any) t t' (self self' : entity) (m n : Z) :
  create_entity coordinators device = (t, Ok self) ->
  create_entity coordinators device' = (t', Ok self') ->
  subscript device "id" = Ok (VInt m) ->
  subscript device' "id" = Ok (VInt n) ->
  _attr_unique_id self = "duux_" ++ repr_int m /\
  (_attr_unique_id self = _attr_unique_id self' <-> m = n).
Proof.
  assert (Hid : forall dev tr e k,
             create_entity coordinators dev = (tr, Ok e) ->
             subscript dev "id" = Ok (VInt k) ->
             _attr_unique_id e = "duux_" ++ repr_int k).
  { intros dev tr e k H Hk.
    destruct (create_entity_returns _ _ _ _ H) as (base & presets & Hb & Hself).
    destruct (base_init_attrs _ _ _ Hb) as (_ & _ & Hid & _ & Hu & _).
    rewrite Hk in Hid. injection Hid as Hid. rewrite <- Hid in Hu.
    destruct Hself as [[_ ->] | [[_ ->] | [_ ->]]]; exact Hu. }
  intros H H' Hm Hn. rewrite (Hid _ _ _ _ H Hm), (Hid _ _ _ _ H' Hn).
  split; [reflexivity|]. split.
  - intro Heq. simpl in Heq. injection Heq as Heq. now apply repr_int_inj.
  - now intros ->.
Qed.

End FurtherSetup.

(** ** Devices that cannot be set up *)

Section FurtherFailures.
Context {F : PyFloat}.

Lemma bind_returns {A B} (m : M A) (k : A -> M B) t a t' r :
  m = (t, Ok a) -> k a = (t', r) -> bind m k = ((t ++ t')%list, r).
Proof. intros -> Hk. unfold bind. now rewrite Hk. Qed.

Lemma bind_raises {A B} (m : M A) (k : A -> M B) t e :
  m = (t, Raise e) -> bind m k = (t, Raise e).
Proof. now intros ->. Qed.

Lemma create_entity_ready coordinators (device : any) :
  ready coordinators device = true ->
  exists t self,
    create_entity coordinators device = (t, Ok self) /\
    subscript device "deviceId" = Ok (_device_mac self).
Proof.
  destruct device as [| | | | | |d]; try discriminate. unfold ready.
  destruct (lookup "id" d) as [id|] eqn:Hid; [|discriminate].
  destruct (lookup "deviceId" d) as [mac|] eqn:Hmac; [|discriminate].
  destruct (hashable mac) eqn:Hh; [|discriminate].
  destruct (coordinators mac) as [data|] eqn:Hco; [|discriminate].
  simpl. intro Hdata.
  unfold create_entity.
  change (get (VDict d) "sensorTypeId" VNone)
    with (Ok (dict_get d "sensorTypeId" VNone)).
  rewrite bind_lift_ok. unfold subscript at 1. rewrite Hmac, bind_lift_ok.
  unfold coordinator_of. rewrite Hh, Hco, bind_lift_ok.
  destruct (py_eq_int _ 49); [|destruct (py_eq_int _ 50); [|destruct (py_eq_int _ 31)]].
  - destruct (threesixty_init Threesixty data d id mac Hid Hmac Hdata)
      as (msg & args & self & -> & _ & Hm & _).
    do 2 eexists. split; [reflexivity|]. now rewrite Hm.
  - destruct (base_init Edge d id mac Hid Hmac) as (base & Hbase & _ & Hm & _).
    unfold DuuxEdgeClimate.__init__. rewrite Hbase.
    do 2 eexists. split; [reflexivity|]. simpl. now rewrite Hm.
  - destruct (threesixty_init ThreesixtyTwo data d id mac Hid Hmac Hdata)
      as (msg & args & self & -> & _ & Hm & _).
    do 2 eexists. split; [reflexivity|]. now rewrite Hm.
  - destruct (discovery_init AutoDiscovery DuuxClimateAutoDiscovery._normalize_mode_name
                data d id mac Hid Hmac Hdata)
      as (msg & args & self & -> & _ & Hm & _).
    do 2 eexists. split; [reflexivity|]. now rewrite Hm.
Qed.

(** X17. When every device is a mapping with its [id] and a [deviceId]
    whose coordinator is registered with a readable snapshot, setting up
    returns one entity for each device, in the order of the devices, each
    with the address of its device. *)
Theorem setup_one_entity_per_device coordinators (devices : list any) :
  Forall (fun device => ready coordinators device = true) devices ->
  exists t entities,
    async_setup_entry coordinators devices = (t, Ok entities) /\
    Forall2 (fun device self => subscript device "deviceId" = Ok (_device_mac self))
      devices entities.
Proof.
  induction 1 as [|device r Hd _ (t & entities & Hrun & Hall)].
  - exists [], []. split; [reflexivity | constructor].
  - destruct (create_entity_ready _ _ Hd) as (t0 & self & Hcreate & Hmac).
    exists (t0 ++ (t ++ []))%list, (self :: entities). split.
    + cbn [async_setup_entry]. eapply bind_returns; [exact Hcreate|].
      eapply bind_returns; [exact Hrun | reflexivity].
    + now constructor.
Qed.

(** X18. Setting up is all or nothing: when the creation of a device
    raises, the devices before it being in order, setting up raises the
    same exception and returns no entity, whatever devices come after. *)
Theorem setup_fails_with_first_failing_device
    coordinators (before after : list any) (bad : any) t (e : exn) :
  Forall (fun device => ready coordinators device = true) before ->
  create_entity coordinators bad = (t, Raise e) ->
  outcome (async_setup_entry coordinators (before ++ bad :: after)) = Raise e.
Proof.
  intros Hbefore Hbad.
  induction Hbefore as [|device r Hd _ IH]; cbn [app async_setup_entry].
  - now rewrite (bind_raises _ _ _ _ Hbad).
  - destruct (create_entity_ready _ _ Hd) as (t0 & self & Hcreate & _).
    destruct (async_setup_entry coordinators (r ++ bad :: after)) as [t1 r1] eqn:Hrest.
    unfold outcome in IH. cbn [snd] in IH. subst r1.
    unfold bind at 1. rewrite Hcreate. reflexivity.
Qed.

(** X19. The descriptors [create_entity] refuses, each with no record in
    the log: one that is no mapping ([AttributeError]), one with no
    [deviceId] ([KeyError]), one whose [deviceId] cannot be hashed
    ([TypeError]) or has no coordinator ([KeyError]), and, whatever its
    hardware code, one with no [id] ([KeyError]). *)
Theorem create_entity_refusals coordinators (device : any) :
  (is_dict device = false ->
   create_entity coordinators device = ([], Raise AttributeError)) /\
  (forall d, device = VDict d -> lookup "deviceId" d = None ->
   create_entity coordinators device = ([], Raise KeyError)) /\
  (forall d mac, device = VDict d -> lookup "deviceId" d = Some mac ->
   hashable mac = false ->
   create_entity coordinators device = ([], Raise TypeError)) /\
  (forall d mac, device = VDict d -> lookup "deviceId" d = Some mac ->
   hashable mac = true -> coordinators mac = None ->
   create_entity coordinators device = ([], Raise KeyError)) /\
  (forall d mac data, device = VDict d -> lookup "deviceId" d = Some mac ->
   hashable mac = true -> coordinators mac = Some data ->
   lookup "id" d = None ->
   create_entity coordinators device = ([], Raise KeyError)).
Proof.
  split; [|split; [|split; [|split]]].
  - destruct device; try discriminate; reflexivity.
  - intros d -> Hmac. unfold create_entity.
    change (get (VDict d) "sensorTypeId" VNone)
      with (Ok (dict_get d "sensorTypeId" VNone)).
    rewrite bind_lift_ok. unfold subscript. now rewrite Hmac.
  - intros d mac -> Hmac Hh. unfold create_entity.
    change (get (VDict d) "sensorTypeId" VNone)
      with (Ok (dict_get d "sensorTypeId" VNone)).
    rewrite bind_lift_ok. unfold subscript. rewrite Hmac, bind_lift_ok.
    unfold coordinator_of. now rewrite Hh.
  - intros d mac -> Hmac Hh Hco. unfold create_entity.
    change (get (VDict d) "sensorTypeId" VNone)
      with (Ok (dict_get d "sensorTypeId" VNone)).
    rewrite bind_lift_ok. unfold subscript. rewrite Hmac, bind_lift_ok.
    unfold coordinator_of. now rewrite Hh, Hco.
  - intros d mac data -> Hmac Hh Hco Hid. unfold create_entity.
    change (get (VDict d) "sensorTypeId" VNone)
      with (Ok (dict_get d "sensorTypeId" VNone)).
    rewrite bind_lift_ok. unfold subscript at 1. rewrite Hmac, bind_lift_ok.
    unfold coordinator_of. rewrite Hh, Hco, bind_lift_ok.
    assert (Hbase : forall c, DuuxClimate.__init__ c (VDict d) = Raise KeyError).
    { intro c. unfold DuuxClimate.__init__, subscript. now rewrite Hid. }
    unfold DuuxThreesixtyBase.__init__, DuuxClimateAutoDiscovery.__init__,
      DuuxEdgeClimate.__init__.
    rewrite !Hbase.
    destruct (py_eq_int _ 49); [|destruct (py_eq_int _ 50); [|destruct (py_eq_int _ 31)]];
      reflexivity.
Qed.

(** X20. [device_info], on an entity whose descriptor is a mapping, raises
    [AttributeError] exactly when [sensorType] is there and is no mapping,
    null included; otherwise the model is the [name] of the sensor type, or
    [Unknown], and the manufacturer is the descriptor's, or [Duux] when the
    key is missing. *)
Theorem device_info_sensor_type (DOMAIN : string) (self : entity) (d : dict) :
  _device self = VDict d ->
  (DuuxClimate.device_info DOMAIN self = Raise AttributeError <->
   exists st, lookup "sensorType" d = Some st /\ is_dict st = false) /\
  (forall info,
     DuuxClimate.device_info DOMAIN self = Ok info ->
     DuuxClimate.identifiers info = [(DOMAIN, str (_device_id self))] /\
     DuuxClimate.name info = _attr_name self /\
     DuuxClimate.manufacturer info = dict_get d "manufacturer" (VStr "Duux") /\
     DuuxClimate.model info =
       match lookup "sensorType" d with
       | Some (VDict st) => dict_get st "name" (VStr "Unknown")
       | _ => VStr "Unknown"
       end).
Proof.
  intro Hd. unfold DuuxClimate.device_info. rewrite Hd.
  change (get (VDict d) "manufacturer" (VStr "Duux"))
    with (Ok (dict_get d "manufacturer" (VStr "Duux"))).
  change (get (VDict d) "sensorType" (VDict []))
    with (Ok (match lookup "sensorType" d with Some st => st | None => VDict [] end)).
  cbv iota beta.
  destruct (lookup "sensorType" d) as [st|].
  - destruct st as [| | | | | |t]; simpl.
    7: { split.
         - split; [discriminate|].
           intros (st & Hst & Hno). injection Hst as <-. discriminate.
         - intros info H. injection H as <-. simpl. repeat split. }
    all: split; [split; [intros _; eexists; split; reflexivity | reflexivity]
                | discriminate].
  - simpl. split.
    + split; [discriminate | intros (st & Hst & _); discriminate].
    + intros info H. injection H as <-. simpl. repeat split.
Qed.

End FurtherFailures.

(** ** What the cached presets are compared with *)

Section FurtherMatching.
Context {F : PyFloat}.
Variable client : api_call -> bool.
Import DuuxClimateAutoDiscovery.

(** X21. A preset records the value of its setting as a string, and it is
    this string the current mode is compared with: the preset of a setting
    matches a mode exactly when the setting has a value and [str] of the
    value is the mode, so the number 2 and the string 2 match alike. *)
Theorem preset_matches_string_of_value
    (normalize : any -> any -> any) (prefix : any) (s : dict) (preset : any)
    (mode : string) :
  preset_of_setting normalize prefix (VDict s) = Some preset ->
  (valued mode preset = true <->
   setting_value s <> VNone /\ str (setting_value s) = mode).
Proof.
  intro H. apply preset_of_setting_shape in H.
  destruct H as (s' & name & command & Hs & _ & _ & _ & _ & ->).
  injection Hs as <-. unfold valued. simpl.
  destruct (is_none (setting_value s)) eqn:Hn; simpl.
  - apply is_none_true in Hn. split; [discriminate | intros [H _]; contradiction].
  - apply is_none_false in Hn. rewrite String.eqb_eq. split; [auto | now intros [_ H]].
Qed.

(** X22. An entity for which nothing is discovered still works, with no
    preset: [preset_modes] is empty, [preset_mode] is [None] on every
    snapshot that is a mapping, and setting any preset raises
    [UnboundLocalError] with nothing sent. *)
Theorem entity_without_modes
    c (normalize : any -> any -> any) (data device : any) t (self : entity) :
  __init__ c normalize data device = (t, Ok self) ->
  resolve_modes data device = Ok VNone ->
  _presets self = [] /\
  preset_modes self = Ok [] /\
  (forall snapshot, preset_mode self (VDict snapshot) = Ok VNone) /\
  (forall name,
     DuuxClimateAutoDiscovery.async_set_preset_mode client self name =
     ([], Raise UnboundLocalError)).
Proof.
  intros Hinit Hres.
  assert (Hp : _presets self = []).
  { revert Hinit. unfold __init__, lift, bind, ret.
    destruct (DuuxClimate.__init__ c device) as [base|e]; [|discriminate].
    rewrite (presets_discovery_resolved _ _ _ _ Hres). simpl.
    intro H. injection H as _ <-. reflexivity. }
  unfold preset_modes, preset_mode, DuuxClimateAutoDiscovery.async_set_preset_mode.
  rewrite Hp. repeat split.
Qed.

End FurtherMatching.

(** ** The further properties on concrete payloads *)

Section FurtherConcrete.
Local Existing Instance no_float.
Import DuuxClimateAutoDiscovery.

Lemma sample_created_returns :
  sample_created = (trace sample_created, Ok sample_entity) /\
  cls sample_entity = Threesixty /\
  _presets sample_entity =
    [VDict [("name", VStr "eco"); ("command", VStr "tune 2"); ("value", VStr "2")];
     VDict [("name", VStr "boost"); ("command", VStr "tune 0"); ("value", VStr "0")]].
Proof. repeat split. Qed.

Lemma sample_constructed :
  __init__ Threesixty DuuxThreesixtyBase._normalize_mode_name
    sample_snapshot sample_device =
  (trace constructed, Ok constructed_entity).
Proof. reflexivity. Defined.

(** Modes in the snapshot, and others in the descriptor. *)
Lemma snapshot_modes_shadow_descriptor_witness :
  presets_discovery _normalize_mode_name
    (VDict [("availableModes", VInt 3)]) sample_snapshot =
  presets_discovery _normalize_mode_name (VDict [("availableModes", VInt 3)]) VNone.
Proof.
  apply (snapshot_modes_shadow_descriptor _normalize_mode_name
           [("availableModes", VInt 3)] (VInt 3) sample_snapshot VNone eq_refl).
  discriminate.
Defined.

(** A setting with the value 1 and no name, on a Threesixty. *)
Lemma threesixty_values_name_presets_witness :
  exists command,
    preset_of_setting DuuxThreesixtyBase._normalize_mode_name VNone
      (VDict [("value", VStr "1")]) =
    Some (VDict [("name", VStr "comfort"); ("command", VStr command);
                 ("value", VStr "1")]).
Proof.
  apply (threesixty_values_name_presets VNone [("value", VStr "1")] "1" PRESET_COMFORT).
  - right. left. reflexivity.
  - reflexivity.
Defined.

Lemma constructed_preset_modes_witness :
  exists names,
    preset_modes constructed_entity = Ok names /\
    Forall2 (fun preset n => subscript preset "name" = Ok n)
      (_presets constructed_entity) names /\
    Forall (fun n => exists s, n = VStr s /\ s <> "") names.
Proof.
  exact (constructed_preset_modes _ _ _ _ _ _ sample_constructed).
Defined.

(** The mode 2 of the snapshot is the preset of value 2. *)
Lemma constructed_preset_mode_first_value_witness :
  preset_mode constructed_entity sample_snapshot =
  Ok (VStr "eco").
Proof.
  pose proof (constructed_preset_mode_first_value _ _ _ _ _ _
                [("power", VInt 1); ("mode", VInt 2)] sample_constructed) as H.
  destruct H as (name & Hname & Hrun).
  injection Hname as <-. exact Hrun.
Defined.

Lemma constructed_preset_mode_listed_witness :
  exists names,
    preset_modes constructed_entity = Ok names /\
    In (VStr "eco") names.
Proof.
  apply (constructed_preset_mode_listed _ _ _ _ _ _ sample_snapshot (VStr "eco")
           sample_constructed eq_refl).
  discriminate.
Defined.

(** Before the first refresh. *)
Lemma properties_need_a_mapping_witness :
  DuuxClimate.current_temperature VNone = Raise AttributeError /\
  DuuxClimate.target_temperature VNone = Raise AttributeError /\
  DuuxClimate.hvac_mode VNone = Raise AttributeError /\
  preset_mode heater VNone = Raise AttributeError /\
  DuuxEdgeClimate.preset_mode VNone = Raise AttributeError.
Proof. exact (properties_need_a_mapping heater VNone eq_refl). Defined.

Lemma edge_presets_round_trip_witness :
  trace (DuuxEdgeClimate.async_set_preset_mode (fun _ => true) edge_heater "boost") =
    [Call (set_mode (VStr "CC:DD") (VStr "3")); RequestRefresh] /\
  DuuxEdgeClimate.preset_mode (VDict [("heatin", VInt 3)]) = Ok "boost".
Proof.
  destruct (edge_presets_round_trip (fun _ => true) edge_heater "boost"
              (or_intror (or_intror (or_introl eq_refl))))
    as (k & Hk & Hset & Hread).
  assert (k = 3) as ->.
  { destruct (Z.eq_dec k 1) as [-> | H1]; [discriminate|].
    destruct (Z.eq_dec k 2) as [-> | H2]; [discriminate|]. lia. }
  split; [exact Hset | exact (Hread [("heatin", VInt 3)] eq_refl)].
Defined.

Lemma edge_unlisted_preset_sends_low_witness :
  trace (DuuxEdgeClimate.async_set_preset_mode (fun _ => true) edge_heater "turbo") =
  [Call (set_mode (VStr "CC:DD") (VInt 1)); RequestRefresh].
Proof.
  apply (edge_unlisted_preset_sends_low (fun _ => true) edge_heater "turbo").
  intros [H | [H | [H | []]]]; discriminate.
Defined.

Lemma edge_preset_mode_listed_witness :
  In "boost" DuuxEdgeClimate.preset_modes.
Proof.
  exact (edge_preset_mode_listed (VDict [("heatin", VInt 3)]) "boost" eq_refl).
Defined.

Lemma created_entity_range_witness :
  (_attr_min_temp sample_entity, _attr_max_temp sample_entity) = (18, 30) /\
  (_attr_min_temp second_entity, _attr_max_temp second_entity) = (5, 36).
Proof.
  split.
  - exact (proj1 (created_entity_range sample_coordinators sample_device
                    (trace sample_created) sample_entity eq_refl)).
  - exact (proj1 (created_entity_range sample_coordinators second_device
                    [] second_entity eq_refl)).
Defined.

Lemma unique_ids_of_integer_ids_witness :
  _attr_unique_id sample_entity = "duux_7" /\
  (_attr_unique_id sample_entity = _attr_unique_id second_entity <-> 7 = 8).
Proof.
  exact (unique_ids_of_integer_ids sample_coordinators sample_device second_device
           (trace sample_created) [] sample_entity second_entity 7 8
           eq_refl eq_refl eq_refl eq_refl).
Defined.

Lemma setup_one_entity_per_device_witness :
  exists t entities,
    async_setup_entry sample_coordinators [sample_device; second_device] =
      (t, Ok entities) /\
    Forall2 (fun device self => subscript device "deviceId" = Ok (_device_mac self))
      [sample_device; second_device] entities.
Proof.
  apply setup_one_entity_per_device. repeat constructor.
Defined.

(** A device with no [deviceId] between two that are in order. *)
Lemma setup_fails_with_first_failing_device_witness :
  outcome (async_setup_entry sample_coordinators
             [sample_device; VDict [("id", VInt 9)]; second_device]) =
  Raise KeyError.
Proof.
  apply (setup_fails_with_first_failing_device sample_coordinators
           [sample_device] [second_device] (VDict [("id", VInt 9)]) [] KeyError).
  - repeat constructor.
  - reflexivity.
Defined.

Lemma create_entity_refusals_witness :
  create_entity sample_coordinators (VList [sample_device]) =
    ([], Raise AttributeError) /\
  create_entity sample_coordinators
    (VDict [("deviceId", VStr "AA:BB"); ("sensorTypeId", VInt 999)]) =
    ([], Raise KeyError).
Proof.
  split.
  - exact (proj1 (create_entity_refusals sample_coordinators (VList [sample_device]))
             eq_refl).
  - destruct (create_entity_refusals sample_coordinators
                (VDict [("deviceId", VStr "AA:BB"); ("sensorTypeId", VInt 999)]))
      as (_ & _ & _ & _ & Hid).
    exact (Hid _ (VStr "AA:BB") sample_snapshot eq_refl eq_refl eq_refl eq_refl eq_refl).
Defined.

(** A descriptor with a sensor type, and one whose [sensorType] is null. *)
Lemma device_info_sensor_type_witness :
  (forall info,
     DuuxClimate.device_info "duux" sample_entity = Ok info ->
     DuuxClimate.model info = VStr "Threesixty") /\
  DuuxClimate.device_info "duux" bare_entity = Raise AttributeError.
Proof.
  split.
  - intros info H.
    destruct (device_info_sensor_type "duux" sample_entity
                [("id", VInt 7); ("deviceId", VStr "AA:BB"); ("sensorTypeId", VInt 49);
                 ("sensorType", VDict [("name", VStr "Threesixty")])] eq_refl)
      as (_ & Hinfo).
    exact (proj2 (proj2 (proj2 (Hinfo info H)))).
  - apply (device_info_sensor_type "duux" bare_entity
             [("id", VInt 3); ("deviceId", VStr "EE:FF"); ("sensorType", VNone)] eq_refl).
    exists VNone. split; reflexivity.
Defined.

(** The value 2, a number, matches the mode written 2. *)
Lemma preset_matches_string_of_value_witness :
  valued "2"
    (VDict [("name", VStr "Eco"); ("command", VStr "2"); ("value", VStr "2")]) = true <->
  setting_value [("name", VStr "Eco"); ("value", VInt 2)] <> VNone /\
  str (setting_value [("name", VStr "Eco"); ("value", VInt 2)]) = "2".
Proof.
  exact (preset_matches_string_of_value _normalize_mode_name VNone
           [("name", VStr "Eco"); ("value", VInt 2)] _ "2" eq_refl).
Defined.

(** A generic device with nothing to discover. *)
Lemma entity_without_modes_witness :
  preset_modes bare_entity = Ok [] /\
  preset_mode bare_entity sample_snapshot = Ok VNone /\
  DuuxClimateAutoDiscovery.async_set_preset_mode (fun _ => true) bare_entity "eco" =
    ([], Raise UnboundLocalError).
Proof.
  destruct (entity_without_modes (fun _ => true) AutoDiscovery _normalize_mode_name
              VNone bare_device (trace bare_created) bare_entity eq_refl eq_refl)
    as (_ & Hmodes & Hmode & Hset).
  split; [exact Hmodes|]. split; [|exact (Hset "eco")].
  exact (Hmode [("power", VInt 1); ("mode", VInt 2);
                ("availableModes",
                 VDict [("command_key", VStr "tune");
                        ("settings",
                         VList [VDict [("name", VStr "Eco"); ("value", VStr "2")];
                                VDict [("name", VStr "Boost"); ("value", VStr "0")]])])]).
Defined.

End FurtherConcrete.
